(** * Groq Model Comparison Lab: a model of [groq_playground.py]

    The program is one Streamlit script.  Two functions carry its logic,
    [clean_response] and [call_groq]; the rest is the handler of the
    "Run Prompt" button, which calls [call_groq] twice and renders two result
    columns and a comparison line.

    Conventions of the embedding:
    - a Python [str] is a list of Unicode code points ([list N]), because
      [str.strip] and [str.split] decide on code points, not on bytes;
    - a Python [float] is modelled by the rational it denotes ([Q]); [0.0]
      is [0].  Comparisons are exact.  A division rounds its exact quotient
      to the nearest binary64 number, ties to even ([truediv]); the exponent
      range of binary64 is not modelled, so no quotient overflows to [inf]
      or underflows.  The difference of two clock readings is taken
      exactly: readings of one clock are multiples of its resolution, and
      so is their difference, which binary64 holds;
    - the clock, the network, the API key and the interpreter's rendering of
      floats and exceptions are the fields of an environment record [Env];
      the key is the one the script holds once it has passed the start-up
      check;
    - [call_groq] and the button handler run in a small state-and-exception
      monad whose state logs the clock reads, the POST requests sent and the
      elements put on the page;
    - the handler always passes the temperature and the token budget, so the
      default values of [call_groq]'s parameters play no part. *)

From Equations Require Import Equations.
From Stdlib Require Import String Ascii DecimalString DecimalPos.
From Stdlib Require Import List NArith ZArith QArith Qabs Qminmax Qround Lia Lqa Bool.
Import ListNotations.
Close Scope Q_scope.
Open Scope list_scope.

Set Warnings "-register-all".

(* ===================================================================== *)
(** * Python values and built-ins                                         *)
(* ===================================================================== *)

Module Py.

(** A character is a code point, a string a list of them. *)
Definition char := N.
Definition str := list char.

(** A literal of the source, read as code points (ASCII only). *)
Definition lit (s : string) : str := map N_of_ascii (list_ascii_of_string s).

Fixpoint str_eqb (a b : str) : bool :=
  match a, b with
  | [], [] => true
  | x :: a', y :: b' => N.eqb x y && str_eqb a' b'
  | _, _ => false
  end.

(** [str.isspace] on one character: the ASCII white space
    (TAB..CR, FS..US, SPACE) and the Unicode white space above U+007F. *)
Definition isspace (c : char) : bool :=
  ((9 <=? c) && (c <=? 13) || (28 <=? c) && (c <=? 32)
   || (c =? 133) || (c =? 160) || (c =? 5760)
   || (8192 <=? c) && (c <=? 8202)
   || (c =? 8232) || (c =? 8233) || (c =? 8239) || (c =? 8287)
   || (c =? 12288))%N.

Fixpoint lstrip (s : str) : str :=
  match s with
  | [] => []
  | c :: s' => if isspace c then lstrip s' else s
  end.

Definition rstrip (s : str) : str := rev (lstrip (rev s)).

(** [s.strip()] *)
Definition strip (s : str) : str := rstrip (lstrip s).

(** [s.startswith(p)] *)
Fixpoint startswith (s p : str) : bool :=
  match p, s with
  | [], _ => true
  | a :: p', b :: s' => N.eqb a b && startswith s' p'
  | _ :: _, [] => false
  end.

(** [s.split()]: the maximal runs of characters that are not white space.
    [cur] is the run being read, in reverse. *)
Fixpoint split_from (cur : str) (s : str) : list str :=
  match s with
  | [] => match cur with [] => [] | _ => [rev cur] end
  | c :: s' =>
      if isspace c
      then match cur with [] => split_from [] s' | _ => rev cur :: split_from [] s' end
      else split_from (c :: cur) s'
  end.

Definition split (s : str) : list str := split_from [] s.

(** [str(n)] for an [int]. *)
Definition str_int (z : Z) : str := lit (NilZero.string_of_int (Z.to_int z)).

(** Order on floats. *)
Definition ltb (x y : Q) : bool := (Qnum x * QDen y <? Qnum y * QDen x)%Z.

(** [max(a, b)] and [min(a, b)] keep their first argument unless the second
    is strictly larger (smaller). *)
Definition max (a b : Q) : Q := if ltb a b then b else a.
Definition min (a b : Q) : Q := if ltb b a then b else a.

(** Rounding of a non-negative rational to the nearest integer, ties to even:
    the rounding of the [f] presentation type. *)
Definition round_half_even (x : Q) : Z :=
  let n := Qnum x in
  let d := QDen x in
  let fl := (n / d)%Z in
  let r := (n mod d)%Z in
  match (2 * r ?= d)%Z with
  | Lt => fl
  | Gt => (fl + 1)%Z
  | Eq => if Z.even fl then fl else (fl + 1)%Z
  end.

Definition digit (z : Z) : char := (48 + Z.to_N z)%N.

(** The [n] low decimal digits of [r], most significant first. *)
Fixpoint frac_digits (n : nat) (r : Z) : str :=
  match n with
  | O => []
  | S k => frac_digits k (r / 10) ++ [digit (r mod 10)]
  end.

(** [format(x, ".nf")]: sign, integer part, and [n] digits after the point. *)
Definition format_f (n : nat) (x : Q) : str :=
  let scale := (10 ^ Z.of_nat n)%Z in
  let m := round_half_even (Qabs x * inject_Z scale)%Q in
  (if ltb x 0 then lit "-" else [])
    ++ str_int (m / scale)
    ++ match n with O => [] | _ => lit "." ++ frac_digits n (m mod scale) end.

(** [x * 2 ^ e] *)
Definition scale2 (x : Q) (e : Z) : Q :=
  if (0 <=? e)%Z then (x * inject_Z (2 ^ e))%Q else (x / inject_Z (2 ^ (- e)))%Q.

(** The integer part of the binary logarithm of a positive number. *)
Definition ilog2 (x : Q) : Z :=
  if Qle_bool 1 x then Z.log2 (Qfloor x) else (- Z.log2_up (Qceiling (/ x)))%Z.

(** The nearest number with a significand of 53 bits, ties to the even
    significand: the rounding of binary64 arithmetic, without its bounds on
    the exponent. *)
Definition round53 (x : Q) : Q :=
  if Qeq_bool x 0 then 0%Q
  else
    let a := Qabs x in
    let e := (ilog2 a - 52)%Z in
    let m := round_half_even (scale2 a (- e)) in
    let r := scale2 (inject_Z m) e in
    if ltb x 0 then (- r)%Q else r.

(** [float(n)] for an [int], as [n / x] converts [n]. *)
Definition float_of_int (z : Z) : Q := round53 (inject_Z z).

(** [a / b] on floats, [b] not zero. *)
Definition truediv (a b : Q) : Q := round53 (a / b).

(** The values [resp.json()] can return, and the payload the script builds.
    A [dict] keeps its insertion order. *)
Inductive value :=
| VNone
| VBool (b : bool)
| VInt (z : Z)
| VFloat (q : Q)
| VStr (s : str)
| VList (l : list value)
| VDict (d : list (str * value)).

(** A subscript of the source: a string key or an integer index. *)
Inductive index :=
| IStr (k : str)
| IInt (i : Z).

(** Exceptions that are instances of [Exception]. *)
Inductive exn :=
| KeyError (i : index)
| IndexError
| TypeError (culprit : value)
| OtherError (name : str) (detail : str).

Inductive result (A : Type) :=
| Ok (a : A)
| Raise (e : exn).
Arguments Ok {A} a.
Arguments Raise {A} e.

Fixpoint dict_get (d : list (str * value)) (k : str) : option value :=
  match d with
  | [] => None
  | (k', v) :: d' => if str_eqb k' k then Some v else dict_get d' k
  end.

(** [v[i]].  The keys of a parsed JSON object are strings, so an integer
    subscript of a [dict] finds nothing; a negative index counts from the end. *)
Definition getitem (v : value) (i : index) : result value :=
  match v, i with
  | VDict d, IStr k =>
      match dict_get d k with Some x => Ok x | None => Raise (KeyError i) end
  | VDict _, IInt _ => Raise (KeyError i)
  | VList l, IInt n =>
      let len := Z.of_nat (length l) in
      let j := (if n <? 0 then n + len else n)%Z in
      if ((0 <=? j) && (j <? len))%Z
      then match nth_error l (Z.to_nat j) with Some x => Ok x | None => Raise IndexError end
      else Raise IndexError
  | VStr s, IInt n =>
      let len := Z.of_nat (length s) in
      let j := (if n <? 0 then n + len else n)%Z in
      if ((0 <=? j) && (j <? len))%Z
      then match nth_error s (Z.to_nat j) with Some c => Ok (VStr [c]) | None => Raise IndexError end
      else Raise IndexError
  | _, _ => Raise (TypeError v)
  end.

(** An argument that must be a [str] (the subject of [re.sub]). *)
Definition as_str (v : value) : result str :=
  match v with
  | VStr s => Ok s
  | _ => Raise (TypeError v)
  end.

End Py.

Import Py.

(* ===================================================================== *)
(** * The regular expression of [clean_response]                          *)
(* ===================================================================== *)

Module Re.

(** [strip_prefix p s]: if [s] starts with the literal [p], what follows it. *)
Fixpoint strip_prefix (p s : str) : option str :=
  match p, s with
  | [], _ => Some s
  | a :: p', b :: s' => if N.eqb a b then strip_prefix p' s' else None
  | _ :: _, [] => None
  end.

Definition open_tag : str := lit "<think>".
Definition close_tag : str := lit "</think>".

(** [.*?</think>] at the head of [s], with DOTALL: the lazy star takes as few
    characters as possible, any character, so the match ends at the first
    closing tag.  Returns the text after the match. *)
Fixpoint lazy_close (s : str) : option str :=
  match strip_prefix close_tag s with
  | Some r => Some r
  | None => match s with [] => None | _ :: s' => lazy_close s' end
  end.

(** [<think>.*?</think>] at the head of [s]. *)
Definition match_think (s : str) : option str :=
  match strip_prefix open_tag s with
  | Some r => lazy_close r
  | None => None
  end.

Definition inspect {A} (a : A) : {b | a = b} := exist _ a eq_refl.

(** [re.sub(r"<think>.*?</think>", "", s, flags=re.DOTALL)]: scanning from the
    left, a match is replaced by nothing and the scan resumes after it; where
    no match starts, the character is copied. *)
Equations? sub_think (s : str) : str by wf (length s) lt :=
  sub_think s with inspect (match_think s) := {
    | exist _ (Some r) e := sub_think r;
    | exist _ None _ with s := {
        | [] := [];
        | c :: s' := c :: sub_think s' } }.
Proof.
  assert (P : forall p t u, strip_prefix p t = Some u -> length t = length p + length u).
  { induction p as [|a p IH]; intros [|b t] u; simpl; try congruence.
    - intros [= <-]; reflexivity.
    - intros [= <-]; reflexivity.
    - destruct (N.eqb a b); [|congruence]. intros H; apply IH in H; lia. }
  assert (L : forall t u, lazy_close t = Some u -> length u < length t).
  { induction t as [|c t IH]; intros u.
    - cbv. congruence.
    - change (lazy_close (c :: t))
        with (match strip_prefix close_tag (c :: t) with
              | Some r => Some r | None => lazy_close t end).
      destruct (strip_prefix close_tag (c :: t)) eqn:E.
      + intros [= <-]. apply P in E. rewrite E. cbn. lia.
      + intros H; apply IH in H; cbn [length]; lia. }
  unfold match_think in e.
  destruct (strip_prefix open_tag s) eqn:E; [|congruence].
  apply L in e. apply P in E. lia.
Qed.

End Re.

(* ===================================================================== *)
(** * The script                                                          *)
(* ===================================================================== *)

(** ** Constants *)

Definition GROQ_API_URL : str := lit "https://api.groq.com/openai/v1/chat/completions".

Definition AVAILABLE_MODELS : list str :=
  [ lit "llama-3.1-8b-instant";
    lit "gemma2-9b-it";
    lit "qwen/qwen3-32b";
    lit "openai/gpt-oss-20b";
    lit "openai/gpt-oss-120b" ].

(** ** The sanitizer *)

Definition clean_response (text : str) : str := strip (Re.sub_think text).

(** ** The world outside the script *)

(** A POST request as [requests.post(url, headers=..., json=...)] sends it. *)
Record Request := {
  url : str;
  headers : value;
  json : value
}.

(** What the script reads of a response: [resp.status_code], [resp.text] and
    the outcome of [resp.json()]. *)
Record Response := {
  status_code : Z;
  text : str;
  resp_json : result value
}.

(** The environment of a run: the configured key, the successive readings of
    [time.time()], the endpoint (the reply to the n-th POST, or the exception
    [requests.post] raises), and the interpreter's [repr] of a float and
    [str] of an exception. *)
Record Env := {
  api_key : str;
  clock : nat -> Q;
  endpoint : nat -> Request -> result Response;
  float_str : Q -> str;
  exn_str : exn -> str
}.

(** Where an element is put on the page. *)
Inductive place := Page | Col1 | Col2.

(** The Streamlit elements the handler writes. *)
Inductive elem :=
| Warning (s : str)
| Spinner (s : str)
| Columns (n : nat)
| Subheader (s : str)
| Info (s : str)
| Write (s : str)
| Caption (s : str)
| Markdown (s : str)
| Success (s : str).

Record State := {
  clock_reads : nat;
  posted : list Request;
  screen : list (place * elem)
}.

(** ** State and exceptions *)

Definition M (A : Type) : Type := State -> result A * State.

Definition ret {A} (a : A) : M A := fun st => (Ok a, st).

Definition bind {A B} (m : M A) (k : A -> M B) : M B :=
  fun st =>
    match m st with
    | (Ok a, st') => k a st'
    | (Raise e, st') => (Raise e, st')
    end.

Notation "x <- m ;; k" := (bind m (fun x => k))
  (at level 61, m at next level, right associativity).
Notation "m ;;; k" := (bind m (fun _ => k))
  (at level 61, right associativity).

(** A pure step that may raise. *)
Definition lift {A} (r : result A) : M A := fun st => (r, st).

(** [try: body except Exception as e: handler(e)] *)
Definition try_except {A} (body : M A) (handler : exn -> M A) : M A :=
  fun st =>
    match body st with
    | (Ok a, st') => (Ok a, st')
    | (Raise e, st') => handler e st'
    end.

(** [time.time()] *)
Definition time_time (W : Env) : M Q :=
  fun st =>
    (Ok (clock W (clock_reads st)),
     {| clock_reads := S (clock_reads st); posted := posted st; screen := screen st |}).

(** [requests.post(url, headers=headers, json=payload)] *)
Definition requests_post (W : Env) (u : str) (h j : value) : M Response :=
  fun st =>
    let rq := {| url := u; headers := h; json := j |} in
    (endpoint W (length (posted st)) rq,
     {| clock_reads := clock_reads st; posted := posted st ++ [rq]; screen := screen st |}).

(** Writing elements on the page. *)
Definition emit (p : place) (es : list elem) : M unit :=
  fun st =>
    (Ok tt,
     {| clock_reads := clock_reads st; posted := posted st;
        screen := screen st ++ map (pair p) es |}).

(** ** The invoker *)

Definition system_instruction : str :=
  lit "You are a helpful assistant. "
  ++ lit "Do not include hidden reasoning steps, thought processes, "
  ++ lit "or <think> tags in your response. "
  ++ lit "Only return the final answer clearly and concisely.".

Definition build_headers (W : Env) : value :=
  VDict [ (lit "Authorization", VStr (lit "Bearer " ++ api_key W));
          (lit "Content-Type", VStr (lit "application/json")) ].

Definition build_payload (prompt model : str) (temperature : Q) (max_tokens : Z) : value :=
  VDict [ (lit "model", VStr model);
          (lit "messages",
           VList [ VDict [ (lit "role", VStr (lit "system"));
                           (lit "content", VStr system_instruction) ];
                   VDict [ (lit "role", VStr (lit "user"));
                           (lit "content", VStr prompt) ] ]);
          (lit "temperature", VFloat temperature);
          (lit "max_tokens", VInt max_tokens) ].

(** [call_groq(prompt, model, temperature, max_tokens)].  Returns the pair
    [(response_text, time_taken)].  The subject of [re.sub] must be a [str],
    so [clean_response] raises on any other content. *)
Definition call_groq (W : Env) (prompt model : str) (temperature : Q) (max_tokens : Z)
  : M (str * Q) :=
  let headers := build_headers W in
  let payload := build_payload prompt model temperature max_tokens in
  try_except
    (start_time <- time_time W ;;
     resp <- requests_post W GROQ_API_URL headers payload ;;
     end_time <- time_time W ;;
     let time_taken := (end_time - start_time)%Q in
     if negb (status_code resp =? 200)%Z
     then ret (lit "Error: " ++ str_int (status_code resp) ++ lit " - " ++ text resp, 0%Q)
     else
       data <- lift (resp_json resp) ;;
       choices <- lift (getitem data (IStr (lit "choices"))) ;;
       choice <- lift (getitem choices (IInt 0)) ;;
       message <- lift (getitem choice (IStr (lit "message"))) ;;
       content <- lift (getitem message (IStr (lit "content"))) ;;
       response_text <- lift (as_str content) ;;
       let response_text := clean_response response_text in
       ret (response_text, time_taken))
    (fun e => ret (lit "Error: " ++ exn_str W e, 0%Q)).

(** ** The controls *)

Inductive Length := Short | Medium | Long.

Definition length_map (o : Length) : Z :=
  match o with
  | Short => 150
  | Medium => 400
  | Long => 800
  end.

(** The values of the widgets when the script runs. *)
Record Controls := {
  model_1 : str;
  model_2 : str;
  temperature : Q;
  length_option : Length;
  custom_max_tokens : Z;
  top_p : Q;
  frequency_penalty : Q;
  user_prompt : str;
  run_prompt_pressed : bool
}.

(** The token budget after the override of the advanced options. *)
Definition max_tokens (c : Controls) : Z :=
  let max_tokens := length_map (length_option c) in
  if negb (custom_max_tokens c =? max_tokens)%Z then custom_max_tokens c else max_tokens.

(** ** Rendering *)

(** Truth value of a string: not empty. *)
Definition truthy (s : str) : bool :=
  match s with [] => false | _ => true end.

(** One result column ([with col1:] and [with col2:] are the same code). *)
Definition render_column (W : Env) (model : str) (temperature : Q) (max_tokens : Z)
    (output : str) (time : Q) : list elem :=
  [ Subheader model;
    Info (lit "Temperature: " ++ float_str W temperature
          ++ lit " | Max Tokens: " ++ str_int max_tokens);
    Write output ]
  ++ (if truthy output && negb (startswith output (lit "Error"))
      then
        let word_count := Z.of_nat (length (split output)) in
        [ Caption (lit "Response time: " ++ format_f 2 time ++ lit " seconds");
          Caption (lit "Word count: " ++ str_int word_count ++ lit " words") ]
        ++ (if ltb 0 time
            then [ Caption (lit "Speed: "
                            ++ format_f 1 (truediv (float_of_int word_count) time)
                            ++ lit " words/second") ]
            else [])
      else []).

Definition faster_model (model_1 model_2 : str) (time_1 time_2 : Q) : str :=
  if ltb time_1 time_2 then model_1 else model_2.

Definition speed_diff (time_1 time_2 : Q) : Q := Qabs (time_1 - time_2)%Q.

Definition speed_ratio (time_1 time_2 : Q) : Q :=
  truediv (Py.max time_1 time_2) (Py.min time_1 time_2).

(** The text of the comparison line. *)
Definition summary_line (model_1 model_2 : str) (time_1 time_2 : Q) : str :=
  faster_model model_1 model_2 time_1 time_2 ++ lit " was "
  ++ format_f 1 (speed_ratio time_1 time_2) ++ lit "x faster ("
  ++ format_f 2 (speed_diff time_1 time_2) ++ lit "s difference)".

(** The comparison summary below the columns. *)
Definition comparison_summary (model_1 model_2 : str) (time_1 time_2 : Q) : list elem :=
  if ltb 0 time_1 && ltb 0 time_2
  then [ Markdown (lit "---"); Success (summary_line model_1 model_2 time_1 time_2) ]
  else [].

(** ** The "Run Prompt" button *)

Definition run_prompt (W : Env) (c : Controls) : M unit :=
  let max_tokens := max_tokens c in
  let top_p := top_p c in
  let frequency_penalty := frequency_penalty c in
  if run_prompt_pressed c
  then
    if str_eqb (strip (user_prompt c)) []
    then emit Page [ Warning (lit "Please enter a prompt first.") ]
    else
      emit Page [ Spinner (lit "Running prompt on " ++ model_1 c ++ lit " and "
                           ++ model_2 c ++ lit "...") ] ;;;
      r1 <- call_groq W (user_prompt c) (model_1 c) (temperature c) max_tokens ;;
      r2 <- call_groq W (user_prompt c) (model_2 c) (temperature c) max_tokens ;;
      let '(output_1, time_1) := r1 in
      let '(output_2, time_2) := r2 in
      emit Page [ Columns 2 ] ;;;
      emit Col1 (render_column W (model_1 c) (temperature c) max_tokens output_1 time_1) ;;;
      emit Col2 (render_column W (model_2 c) (temperature c) max_tokens output_2 time_2) ;;;
      emit Page (comparison_summary (model_1 c) (model_2 c) time_1 time_2)
  else ret tt.

Definition initial : State := {| clock_reads := 0; posted := []; screen := [] |}.

(* ===================================================================== *)
(** * Vocabulary of the specification                                     *)
(* ===================================================================== *)

(** [p] occurs in [s] as a contiguous piece. *)
Definition occurs (p s : str) : Prop := exists u v, s = u ++ p ++ v.

(** The same as a test, to settle occurrences in concrete texts. *)
Fixpoint occursb (p s : str) : bool :=
  startswith s p || match s with [] => false | _ :: s' => occursb p s' end.

(** A reasoning-delimited segment, in the words of the specification: an
    opening marker followed later by a closing marker. *)
Definition has_segment (s : str) : Prop :=
  exists a b c, s = a ++ Re.open_tag ++ b ++ Re.close_tag ++ c.

(** A text written as pieces [a ++ <think> ++ b ++ </think>] followed by a
    tail, and the same text with the delimited pieces taken out. *)
Fixpoint with_segments (l : list (str * str)) (tail : str) : str :=
  match l with
  | [] => tail
  | (a, b) :: l' => a ++ Re.open_tag ++ b ++ Re.close_tag ++ with_segments l' tail
  end.

Fixpoint without_segments (l : list (str * str)) (tail : str) : str :=
  match l with
  | [] => tail
  | (a, _) :: l' => a ++ without_segments l' tail
  end.

(** A piece as the scan meets it: no opening marker before the one that
    opens the segment, no closing marker before the one that closes it. *)
Definition scanned (p : str * str) : Prop :=
  ~ occurs Re.open_tag (fst p) /\ ~ occurs Re.close_tag (snd p).

(** A blank prompt: empty, or white space only. *)
Definition blank (s : str) : Prop := forallb isspace s = true.

(** The request [call_groq] sends. *)
Definition request_of (W : Env) (prompt model : str) (temperature : Q) (max_tokens : Z)
  : Request :=
  {| url := GROQ_API_URL;
     headers := build_headers W;
     json := build_payload prompt model temperature max_tokens |}.

Definition and_then {A B} (r : result A) (k : A -> result B) : result B :=
  match r with
  | Ok a => k a
  | Raise e => Raise e
  end.

(** The content of the first completion's message, as the script reads it
    from a response: [resp.json()["choices"][0]["message"]["content"]], which
    must be a string.  The body is well formed when this is [Ok]. *)
Definition message_content (resp : Response) : result str :=
  and_then (resp_json resp) (fun data =>
  and_then (getitem data (IStr (lit "choices"))) (fun choices =>
  and_then (getitem choices (IInt 0)) (fun choice =>
  and_then (getitem choice (IStr (lit "message"))) (fun message =>
  and_then (getitem message (IStr (lit "content"))) as_str)))).

(** The ways a call fails, with the text it then returns. *)
Inductive failure (W : Env) : result Response -> str -> Prop :=
| transport_failure e :
    failure W (Raise e) (lit "Error: " ++ exn_str W e)
| status_failure resp :
    status_code resp <> 200%Z ->
    failure W (Ok resp)
      (lit "Error: " ++ str_int (status_code resp) ++ lit " - " ++ text resp)
| parsing_failure resp e :
    status_code resp = 200%Z ->
    message_content resp = Raise e ->
    failure W (Ok resp) (lit "Error: " ++ exn_str W e).

(** The state after one call that started in [st]: one POST logged, and the
    clock read twice unless [requests.post] raised. *)
Definition after_call (W : Env) (rq : Request) (st : State) : State :=
  {| clock_reads :=
       match endpoint W (length (posted st)) rq with
       | Ok _ => S (S (clock_reads st))
       | Raise _ => S (clock_reads st)
       end;
     posted := posted st ++ [rq];
     screen := screen st |}.

(** The controls with other values of the two sampling sliders. *)
Definition with_sampling (c : Controls) (p f : Q) : Controls :=
  {| model_1 := model_1 c;
     model_2 := model_2 c;
     temperature := temperature c;
     length_option := length_option c;
     custom_max_tokens := custom_max_tokens c;
     top_p := p;
     frequency_penalty := f;
     user_prompt := user_prompt c;
     run_prompt_pressed := run_prompt_pressed c |}.

(** The keys of a [dict]. *)
Definition keys (v : value) : list str :=
  match v with
  | VDict d => map fst d
  | _ => []
  end.

Definition isdigit (c : char) : bool := ((48 <=? c) && (c <=? 57))%N.




(** The text of the spinner shown while the two calls run. *)
Definition spinner_text (c : Controls) : str :=
  lit "Running prompt on " ++ model_1 c ++ lit " and " ++ model_2 c ++ lit "...".

(* ===================================================================== *)
(** * Sample environments and inputs                                      *)
(* ===================================================================== *)

(** A rendering of exceptions for the examples. *)
Definition sample_exn_str (e : exn) : str :=
  match e with
  | KeyError (IStr k) => lit "'" ++ k ++ lit "'"
  | KeyError (IInt i) => str_int i
  | IndexError => lit "list index out of range"
  | TypeError _ => lit "object is not subscriptable"
  | OtherError _ detail => detail
  end.

Definition sample_env (clk : nat -> Q) (srv : nat -> Request -> result Response) : Env :=
  {| api_key := lit "gsk_sample";
     clock := clk;
     endpoint := srv;
     float_str := format_f 1;
     exn_str := sample_exn_str |}.

(** A body of the expected shape [{choices: [{message: {content}}]}]. *)
Definition completion_body (content : value) : value :=
  VDict [ (lit "choices",
           VList [ VDict [ (lit "message", VDict [ (lit "content", content) ]) ] ]) ].

Definition ok_response (content : str) : Response :=
  {| status_code := 200; text := []; resp_json := Ok (completion_body (VStr content)) |}.

Definition error_response : Response :=
  {| status_code := 500;
     text := lit "boom";
     resp_json := Raise (OtherError (lit "JSONDecodeError") (lit "Expecting value")) |}.

(** A clock that advances by half a second at each reading, and one that
    stands still. *)
Definition ticking (n : nat) : Q := (inject_Z (Z.of_nat n) * (1 # 2))%Q.
Definition frozen (n : nat) : Q := 1700000000%Q.

Definition env_hello : Env := sample_env ticking (fun _ _ => Ok (ok_response (lit "Hello there"))).
Definition env_frozen : Env := sample_env frozen (fun _ _ => Ok (ok_response (lit "Hello there"))).
Definition env_500 : Env := sample_env ticking (fun _ _ => Ok error_response).
Definition env_said_error : Env :=
  sample_env ticking (fun _ _ => Ok (ok_response (lit "Error: 500 - boom"))).

(** The controls as the page first shows them (the first and the second
    model, temperature 0.7, medium length, no override), with a prompt. *)
Definition say_hi (prompt : str) : Controls :=
  {| model_1 := nth 0 AVAILABLE_MODELS [];
     model_2 := nth 1 AVAILABLE_MODELS [];
     temperature := (7 # 10)%Q;
     length_option := Medium;
     custom_max_tokens := 400;
     top_p := (9 # 10)%Q;
     frequency_penalty := 0%Q;
     user_prompt := prompt;
     run_prompt_pressed := true |}.

(** The scenario of the specification: the first call takes 0.50 s and the
    second 1.00 s. *)
Definition scenario_clock (n : nat) : Q :=
  match n with
  | 0%nat => 10%Q
  | 1%nat => (10 + (1 # 2))%Q
  | 2%nat => 11%Q
  | _ => 12%Q
  end.

Definition env_scenario : Env :=
  sample_env scenario_clock (fun _ _ => Ok (ok_response (lit "Hello there"))).

(* ===================================================================== *)
(** * The start of the script: the API key                                *)
(* ===================================================================== *)

(** Truth value of the key: [None] and the empty string are false. *)
Definition key_present (k : option str) : bool :=
  match k with
  | Some (_ :: _) => true
  | _ => false
  end.

(** How the start-up ends: [st.error(...); st.stop()], or the script goes on
    with a key. *)
Inductive startup :=
| Halted (error : str)
| Started (key : str).

(** The key is read from the environment ([os.getenv], [None] when the
    variable is not set); when it is missing or empty the sidebar asks for it
    ([typed] is the value of the masked text input, empty until the user
    types).  Returns whether the sidebar asked, and how the start-up ends. *)
Definition load_api_key (getenv : option str) (typed : str) : bool * startup :=
  let api_key := getenv in
  let asked := negb (key_present api_key) in
  let api_key := if asked then Some typed else api_key in
  match api_key with
  | Some (c :: k) => (asked, Started (c :: k))
  | _ => (asked, Halted (lit "Please provide a Groq API Key to continue."))
  end.

(** The environment with the key the start-up found. *)
Definition with_api_key (W : Env) (k : str) : Env :=
  {| api_key := k;
     clock := clock W;
     endpoint := endpoint W;
     float_str := float_str W;
     exn_str := exn_str W |}.

(** One run of the script: stopped at the start-up, or carried through the
    button handler.  The widgets between the two only collect the values of
    [Controls]; the title, the captions and the tips they come with do not
    depend on any input and are left out. *)
Inductive run :=
| Stopped (error : str)
| Completed (r : result unit) (st : State).

Definition script (W : Env) (getenv : option str) (typed : str) (c : Controls)
    (st : State) : run :=
  match snd (load_api_key getenv typed) with
  | Halted error => Stopped error
  | Started k =>
      let (r, st') := run_prompt (with_api_key W k) c st in
      Completed r st'
  end.

(** ** More vocabulary *)

(** [s] is [t] with some characters deleted. *)
Inductive subseq : str -> str -> Prop :=
| subseq_nil : subseq [] []
| subseq_skip c s t : subseq s t -> subseq s (c :: t)
| subseq_keep c s t : subseq s t -> subseq (c :: s) (c :: t).

(** The derived metrics of a column are its captions. *)
Definition is_caption (e : elem) : bool :=
  match e with
  | Caption _ => true
  | _ => false
  end.

(** The three lines every column starts with. *)
Definition column_head (W : Env) (model : str) (temperature : Q) (max_tokens : Z)
    (output : str) : list elem :=
  [ Subheader model;
    Info (lit "Temperature: " ++ float_str W temperature
          ++ lit " | Max Tokens: " ++ str_int max_tokens);
    Write output ].

(** A call that succeeded: status 200 and a well-formed body. *)
Definition succeeded (reply : result Response) (content : str) : Prop :=
  exists resp,
    reply = Ok resp /\ status_code resp = 200%Z /\ message_content resp = Ok content.

(** An endpoint that fails on the first request and answers the second. *)
Definition env_first_fails : Env :=
  sample_env ticking
    (fun n _ => match n with
                | O => Raise (OtherError (lit "ConnectionError") (lit "connection refused"))
                | _ => Ok (ok_response (lit "Hello there"))
                end).

(** An endpoint that answers the first request and fails on the second. *)
Definition env_second_fails : Env :=
  sample_env ticking
    (fun n _ => match n with
                | O => Ok (ok_response (lit "Hello there"))
                | _ => Ok error_response
                end).

(* ===================================================================== *)
(** * Runs on concrete inputs                                             *)
(* ===================================================================== *)

Example clean_response_one_segment :
  clean_response (lit "  A <think>x" ++ [10%N] ++ lit "y</think> B ") = lit "A  B".
Proof. reflexivity. Qed.

Example clean_response_two_segments :
  clean_response (lit "<think>a</think>Hello<think>b</think> there") = lit "Hello there".
Proof. reflexivity. Qed.

Example clean_response_unicode_space :
  clean_response ([12288%N; 160%N] ++ lit "ok" ++ [8232%N]) = lit "ok".
Proof. reflexivity. Qed.

Example format_f_ties_to_even :
  format_f 2 (1 # 8) = lit "0.12" /\ format_f 2 (3 # 8) = lit "0.38"
  /\ format_f 1 (399 # 100) = lit "4.0" /\ format_f 2 (- (1 # 1000)) = lit "-0.00".
Proof. repeat split; reflexivity. Qed.

Example getitem_chain :
  message_content (ok_response (lit "Hello there")) = Ok (lit "Hello there")
  /\ message_content {| status_code := 200; text := []; resp_json := Ok (VDict []) |}
     = Raise (KeyError (IStr (lit "choices")))
  /\ message_content {| status_code := 200; text := [];
                        resp_json := Ok (completion_body VNone) |}
     = Raise (TypeError VNone).
Proof. repeat split; reflexivity. Qed.

(** Quotients are rounded as binary64 rounds them before they are written:
    7881299347898373/2^52 over 4503599627370499/2^52 is the float 1.75 and
    is written "1.8"; one word in 0.4444444444444444 s is the float 2.25 and
    is written "2.2". *)
Example rounded_quotients :
  summary_line (lit "a") (lit "b")
    (4503599627370499 # 4503599627370496) (7881299347898373 # 4503599627370496)
  = lit "a was 1.8x faster (0.75s difference)"
  /\ (truediv (float_of_int 1) (2001599834386887 # 4503599627370496) == 9 # 4)%Q
  /\ format_f 1 (truediv (float_of_int 1) (2001599834386887 # 4503599627370496))
     = lit "2.2"
  /\ (truediv 1 3 == 6004799503160661 # 18014398509481984)%Q
  /\ (float_of_int 9007199254740993 == 9007199254740992 # 1)%Q.
Proof. repeat split; vm_compute; reflexivity. Qed.

(** The end-to-end scenario of the specification. *)
Example scenario_screen :
  map snd (screen (snd (run_prompt env_scenario (say_hi (lit "Say hi")) initial))) =
  [ Spinner (lit "Running prompt on llama-3.1-8b-instant and gemma2-9b-it...");
    Columns 2;
    Subheader (lit "llama-3.1-8b-instant");
    Info (lit "Temperature: 0.7 | Max Tokens: 400");
    Write (lit "Hello there");
    Caption (lit "Response time: 0.50 seconds");
    Caption (lit "Word count: 2 words");
    Caption (lit "Speed: 4.0 words/second");
    Subheader (lit "gemma2-9b-it");
    Info (lit "Temperature: 0.7 | Max Tokens: 400");
    Write (lit "Hello there");
    Caption (lit "Response time: 1.00 seconds");
    Caption (lit "Word count: 2 words");
    Caption (lit "Speed: 2.0 words/second");
    Markdown (lit "---");
    Success (lit "llama-3.1-8b-instant was 2.0x faster (0.50s difference)") ].
Proof. vm_compute. reflexivity. Qed.

Example scenario_requests :
  map json (posted (snd (run_prompt env_scenario (say_hi (lit "Say hi")) initial))) =
  [ build_payload (lit "Say hi") (lit "llama-3.1-8b-instant") (7 # 10) 400;
    build_payload (lit "Say hi") (lit "gemma2-9b-it") (7 # 10) 400 ].
Proof. vm_compute. reflexivity. Qed.

(* ===================================================================== *)
(** * The matcher                                                         *)
(* ===================================================================== *)

Section Matcher.
Import Re.

Lemma strip_prefix_app p r : strip_prefix p (p ++ r) = Some r.
Proof.
  induction p as [|a p IH]; simpl.
  - destruct r; reflexivity.
  - rewrite N.eqb_refl. exact IH.
Qed.

Lemma strip_prefix_Some p s r : strip_prefix p s = Some r -> s = p ++ r.
Proof.
  revert s; induction p as [|a p IH]; intros [|b s]; simpl; try congruence.
  destruct (N.eqb_spec a b) as [->|]; [|congruence].
  intros H. f_equal. auto.
Qed.

(** The markers start with ['<'] and hold no other ['<']; they differ at
    their second character. *)
Lemma open_tag_head u l : open_tag = u ++ 60%N :: l -> u = [].
Proof.
  destruct u as [|c u]; [reflexivity|]. intros H. exfalso.
  assert (I : In 60%N (tl open_tag)).
  { rewrite H. simpl. apply in_or_app. right. left. reflexivity. }
  vm_compute in I. intuition discriminate.
Qed.

Lemma close_tag_head u l : close_tag = u ++ 60%N :: l -> u = [].
Proof.
  destruct u as [|c u]; [reflexivity|]. intros H. exfalso.
  assert (I : In 60%N (tl close_tag)).
  { rewrite H. simpl. apply in_or_app. right. left. reflexivity. }
  vm_compute in I. intuition discriminate.
Qed.

Lemma open_close_clash x y : open_tag ++ x <> close_tag ++ y.
Proof. intros H. vm_compute in H. discriminate. Qed.

(** A marker cannot start inside the text before a later copy of itself
    unless it lies in that text. *)
Lemma open_not_early a rest :
  a <> [] -> ~ occurs open_tag a -> strip_prefix open_tag (a ++ open_tag ++ rest) = None.
Proof.
  intros Ha Hn. destruct (strip_prefix open_tag (a ++ open_tag ++ rest)) as [r|] eqn:E;
    [|reflexivity].
  exfalso. apply strip_prefix_Some in E. apply app_eq_app in E.
  destruct E as [l [[E1 E2]|[E1 E2]]].
  - apply Hn. exists [], l. exact E1.
  - destruct l as [|y l].
    + apply Hn. exists [], []. rewrite app_nil_r in E1. rewrite app_nil_r. symmetry. exact E1.
    + assert (y = 60%N) by (vm_compute in E2; congruence). subst y.
      apply open_tag_head in E1. contradiction.
Qed.

Lemma close_not_early b rest :
  b <> [] -> ~ occurs close_tag b -> strip_prefix close_tag (b ++ close_tag ++ rest) = None.
Proof.
  intros Hb Hn. destruct (strip_prefix close_tag (b ++ close_tag ++ rest)) as [r|] eqn:E;
    [|reflexivity].
  exfalso. apply strip_prefix_Some in E. apply app_eq_app in E.
  destruct E as [l [[E1 E2]|[E1 E2]]].
  - apply Hn. exists [], l. exact E1.
  - destruct l as [|y l].
    + apply Hn. exists [], []. rewrite app_nil_r in E1. rewrite app_nil_r. symmetry. exact E1.
    + assert (y = 60%N) by (vm_compute in E2; congruence). subst y.
      apply close_tag_head in E1. contradiction.
Qed.

Lemma occurs_cons p c s : occurs p s -> occurs p (c :: s).
Proof. intros (u & v & ->). exists (c :: u), v. reflexivity. Qed.

Lemma occurs_close_after_open b : occurs close_tag (open_tag ++ b) -> occurs close_tag b.
Proof.
  intros (u & v & E). apply app_eq_app in E. destruct E as [l [[E1 E2]|[E1 E2]]].
  - destruct l as [|y l].
    + exists [], v. symmetry. exact E2.
    + assert (y = 60%N) by (vm_compute in E2; congruence). subst y.
      pose proof (open_tag_head _ _ E1) as Hu. subst u. simpl in E1. rewrite <- E1 in E2.
      symmetry in E2. apply open_close_clash in E2. contradiction.
  - exists l, v. exact E2.
Qed.

Lemma lazy_close_unfold s :
  lazy_close s =
  match strip_prefix close_tag s with
  | Some r => Some r
  | None => match s with [] => None | _ :: s' => lazy_close s' end
  end.
Proof. destruct s; reflexivity. Qed.

(** The lazy star stops at the first closing marker. *)
Lemma lazy_close_Some s r :
  lazy_close s = Some r -> exists b, s = b ++ close_tag ++ r /\ ~ occurs close_tag b.
Proof.
  induction s as [|c s IH]; rewrite lazy_close_unfold.
  - vm_compute. congruence.
  - destruct (strip_prefix close_tag (c :: s)) as [r'|] eqn:E.
    + intros [= ->]. apply strip_prefix_Some in E. exists []. split; [exact E|].
      intros (u & v & H). destruct u; vm_compute in H; discriminate.
    + intros H. destruct (IH H) as (b & -> & Hb). exists (c :: b). split; [reflexivity|].
      intros (u & v & Hu). destruct u as [|x u].
      * change (c :: b ++ close_tag ++ r) with ((c :: b) ++ close_tag ++ r) in E.
        rewrite Hu in E. change ([] ++ close_tag ++ v) with (close_tag ++ v) in E.
        rewrite <- app_assoc in E. rewrite strip_prefix_app in E. discriminate.
      * simpl in Hu. injection Hu as _ Hu. apply Hb. exists u, v. exact Hu.
Qed.

Lemma lazy_close_first b r : ~ occurs close_tag b -> lazy_close (b ++ close_tag ++ r) = Some r.
Proof.
  induction b as [|x b IH]; intros Hb; rewrite lazy_close_unfold.
  - change ([] ++ close_tag ++ r) with (close_tag ++ r).
    rewrite strip_prefix_app. reflexivity.
  - rewrite (close_not_early (x :: b) r); [|discriminate|exact Hb].
    change ((x :: b) ++ close_tag ++ r) with (x :: b ++ close_tag ++ r). apply IH. intros H. apply Hb. apply occurs_cons. exact H.
Qed.

Lemma lazy_close_None s : ~ occurs close_tag s -> lazy_close s = None.
Proof.
  intros Hn. destruct (lazy_close s) as [r|] eqn:E; [|reflexivity].
  exfalso. apply lazy_close_Some in E. destruct E as (b & -> & _).
  apply Hn. exists b, r. reflexivity.
Qed.

Lemma match_think_Some s r :
  match_think s = Some r ->
  exists b, s = open_tag ++ b ++ close_tag ++ r /\ ~ occurs close_tag b.
Proof.
  unfold match_think. destruct (strip_prefix open_tag s) as [t|] eqn:E; [|congruence].
  intros H. apply strip_prefix_Some in E. apply lazy_close_Some in H.
  destruct H as (b & -> & Hb). exists b. split; assumption.
Qed.

Lemma match_think_first b r :
  ~ occurs close_tag b -> match_think (open_tag ++ b ++ close_tag ++ r) = Some r.
Proof.
  intros Hb. unfold match_think. rewrite strip_prefix_app. apply lazy_close_first. exact Hb.
Qed.

(** The three cases of the scan. *)
Lemma sub_think_nil : sub_think [] = [].
Proof. reflexivity. Qed.

Lemma sub_think_match s r : match_think s = Some r -> sub_think s = sub_think r.
Proof.
  intros H. funelim (sub_think s); try congruence.
  vm_compute in H. discriminate.
Qed.

Lemma sub_think_copy c s :
  match_think (c :: s) = None -> sub_think (c :: s) = c :: sub_think s.
Proof.
  intros H. funelim (sub_think (c :: s)); try congruence.
Qed.

End Matcher.

(* ===================================================================== *)
(** * What the substitution removes and what it keeps                     *)
(* ===================================================================== *)

Section Substitution.
Import Re.

Lemma has_segment_cons c s : has_segment s -> has_segment (c :: s).
Proof. intros (a & b & d & ->). exists (c :: a), b, d. reflexivity. Qed.

Lemma has_segment_occurs_close s : has_segment s -> occurs close_tag s.
Proof.
  intros (a & b & c & ->). exists (a ++ open_tag ++ b), c.
  rewrite <- !app_assoc. reflexivity.
Qed.

(** Without a segment nothing matches and the text is copied. *)
Lemma sub_think_no_segment s : ~ has_segment s -> sub_think s = s.
Proof.
  induction s as [|c s IH]; intros Hn.
  - apply sub_think_nil.
  - destruct (match_think (c :: s)) as [r|] eqn:E.
    + exfalso. apply match_think_Some in E. destruct E as (b & E & _).
      apply Hn. exists [], b, r. exact E.
    + rewrite (sub_think_copy _ _ E). f_equal. apply IH.
      intros H. apply Hn. apply has_segment_cons. exact H.
Qed.

(** The first opening marker and the first closing marker after it delimit
    the segment that is removed; the scan resumes after it. *)
Lemma sub_think_first_segment a b c :
  ~ occurs open_tag a -> ~ occurs close_tag b ->
  sub_think (a ++ open_tag ++ b ++ close_tag ++ c) = a ++ sub_think c.
Proof.
  intros Ha Hb. induction a as [|x a IH].
  - change ([] ++ open_tag ++ b ++ close_tag ++ c) with (open_tag ++ b ++ close_tag ++ c).
    apply sub_think_match. apply match_think_first. exact Hb.
  - change ((x :: a) ++ open_tag ++ b ++ close_tag ++ c)
      with (x :: a ++ open_tag ++ b ++ close_tag ++ c).
    rewrite sub_think_copy.
    + simpl. f_equal. apply IH. intros H. apply Ha. apply occurs_cons. exact H.
    + unfold match_think.
      change (x :: a ++ open_tag ++ b ++ close_tag ++ c)
        with ((x :: a) ++ open_tag ++ b ++ close_tag ++ c).
      rewrite open_not_early; [reflexivity|discriminate|exact Ha].
Qed.

(** Any number of such segments. *)
Lemma sub_think_with_segments l tail :
  Forall (fun p => ~ occurs open_tag (fst p) /\ ~ occurs close_tag (snd p)) l ->
  ~ has_segment tail ->
  sub_think (with_segments l tail) = without_segments l tail.
Proof.
  intros Hl Ht. induction Hl as [|[a b] l [Ha Hb] Hl IH];
    cbn [with_segments without_segments fst snd] in *.
  - apply sub_think_no_segment. exact Ht.
  - rewrite sub_think_first_segment by assumption. rewrite IH. reflexivity.
Qed.

(** A match that starts in [a] also ends in [a] when no closing marker
    follows the opening marker that comes after [a]. *)
Lemma match_before_unterminated a b r :
  ~ occurs close_tag b ->
  match_think (a ++ open_tag ++ b) = Some r ->
  exists r', r = r' ++ open_tag ++ b /\ match_think a = Some r' .
Proof.
  intros Hb E. apply match_think_Some in E. destruct E as (b0 & E & Hb0).
  assert (Hob : ~ occurs close_tag (open_tag ++ b)).
  { intros H. apply Hb. apply occurs_close_after_open. exact H. }
  replace (open_tag ++ b0 ++ close_tag ++ r) with ((open_tag ++ b0 ++ close_tag) ++ r) in E
    by (rewrite <- !app_assoc; reflexivity).
  apply app_eq_app in E. destruct E as [l [[E1 E2]|[E1 E2]]].
  - exists l. split; [exact E2|]. rewrite E1. rewrite <- !app_assoc.
    apply match_think_first. exact Hb0.
  - destruct l as [|y l].
    + exists []. rewrite app_nil_r in E1. simpl in E2. split; [symmetry; exact E2|].
      rewrite <- E1. rewrite <- (app_nil_r close_tag). apply match_think_first. exact Hb0.
    + exfalso. replace (open_tag ++ b0 ++ close_tag) with ((open_tag ++ b0) ++ close_tag) in E1
        by (rewrite <- !app_assoc; reflexivity).
      apply app_eq_app in E1. destruct E1 as [l2 [[E3 E4]|[E3 E4]]].
      * apply Hob. rewrite E2, E4. exists l2, r. rewrite <- !app_assoc. reflexivity.
      * assert (y = 60%N) by (vm_compute in E2; congruence). subst y.
        pose proof (close_tag_head _ _ E4) as Hl2. subst l2. simpl in E4.
        apply Hob. rewrite E2, <- E4. exists [], r. reflexivity.
Qed.

(** An opening marker with no closing marker after it stays where it is,
    with all the text after it. *)
Lemma sub_think_unterminated a b :
  ~ occurs close_tag b ->
  sub_think (a ++ open_tag ++ b) = sub_think a ++ open_tag ++ b.
Proof.
  intros Hb.
  assert (Hob : ~ occurs close_tag (open_tag ++ b)).
  { intros H. apply Hb. apply occurs_close_after_open. exact H. }
  remember (length a) as n eqn:Hn. revert a Hn.
  induction n as [n IH] using lt_wf_ind. intros a Hn.
  destruct a as [|x a].
  - simpl. rewrite sub_think_nil. simpl. apply sub_think_no_segment.
    intros H. apply Hob. apply has_segment_occurs_close. exact H.
  - destruct (match_think ((x :: a) ++ open_tag ++ b)) as [r|] eqn:E.
    + destruct (match_before_unterminated _ _ _ Hb E) as (r' & -> & E').
      rewrite (sub_think_match _ _ E), (sub_think_match _ _ E').
      apply match_think_Some in E'. destruct E' as (b0 & E' & _).
      apply (IH (length r')); [|reflexivity].
      rewrite Hn, E'. rewrite !length_app.
      change (length open_tag) with 7. lia.
    + assert (E' : match_think (x :: a) = None).
      { destruct (match_think (x :: a)) as [r'|] eqn:E'; [|reflexivity].
        apply match_think_Some in E'. destruct E' as (b0 & E' & Hb0).
        rewrite E' in E. rewrite <- !app_assoc in E.
        rewrite (match_think_first _ _ Hb0) in E. discriminate. }
      change ((x :: a) ++ open_tag ++ b) with (x :: a ++ open_tag ++ b) in *.
      rewrite (sub_think_copy _ _ E), (sub_think_copy _ _ E'). simpl. f_equal.
      apply (IH (length a)); [|reflexivity]. rewrite Hn. simpl. lia.
Qed.

End Substitution.

(* ===================================================================== *)
(** * Every text is a sequence of scanned segments and a tail             *)
(* ===================================================================== *)

Section Decomposition.
Import Re.

Lemma nil_no_occurrence p : p <> [] -> ~ occurs p [].
Proof.
  intros Hp (u & v & H). destruct u; [destruct p|]; simpl in H; congruence.
Qed.

Lemma lazy_close_finds s : occurs close_tag s -> lazy_close s <> None.
Proof.
  induction s as [|c s IH]; intros H.
  - exfalso. revert H. apply nil_no_occurrence. discriminate.
  - rewrite lazy_close_unfold.
    destruct (strip_prefix close_tag (c :: s)) eqn:E; [discriminate|].
    apply IH. destruct H as (u & v & H). destruct u as [|x u].
    + change ([] ++ close_tag ++ v) with (close_tag ++ v) in H.
      rewrite H, strip_prefix_app in E. discriminate.
    + injection H as _ H. exists u, v. exact H.
Qed.

(** Where the scan finds no match at the head, a segment of the text lies in
    its tail. *)
Lemma has_segment_tail c s :
  match_think (c :: s) = None -> has_segment (c :: s) -> has_segment s.
Proof.
  intros E (a & b & d & H). destruct a as [|x a].
  - exfalso. change ([] ++ open_tag ++ b ++ close_tag ++ d)
      with (open_tag ++ b ++ close_tag ++ d) in H.
    unfold match_think in E. rewrite H, strip_prefix_app in E.
    revert E. apply lazy_close_finds. exists b, d. reflexivity.
  - injection H as _ H. exists a, b, d. exact H.
Qed.

Lemma first_segment s :
  has_segment s ->
  exists a b r, s = a ++ open_tag ++ b ++ close_tag ++ r
                /\ ~ occurs open_tag a /\ ~ occurs close_tag b.
Proof.
  induction s as [|c s IH]; intros H.
  - exfalso. apply has_segment_occurs_close in H. revert H.
    apply nil_no_occurrence. discriminate.
  - destruct (match_think (c :: s)) as [r|] eqn:E.
    + apply match_think_Some in E. destruct E as (b & E & Hb).
      exists [], b, r. split; [exact E|]. split; [|exact Hb].
      apply nil_no_occurrence. discriminate.
    + destruct (IH (has_segment_tail _ _ E H)) as (a & b & r & -> & Ha & Hb).
      exists (c :: a), b, r. split; [reflexivity|]. split; [|exact Hb].
      intros (u & v & Hu). destruct u as [|x u].
      * change ([] ++ open_tag ++ v) with (open_tag ++ v) in Hu.
        unfold match_think in E.
        change (c :: a ++ open_tag ++ b ++ close_tag ++ r)
          with ((c :: a) ++ open_tag ++ b ++ close_tag ++ r) in E.
        rewrite Hu, <- app_assoc, strip_prefix_app in E.
        revert E. apply lazy_close_finds.
        exists (v ++ open_tag ++ b), r. rewrite <- !app_assoc. reflexivity.
      * injection Hu as _ Hu. apply Ha. exists u, v. exact Hu.
Qed.

Lemma has_segment_dec s : has_segment s \/ ~ has_segment s.
Proof.
  induction s as [|c s [IH|IH]].
  - right. intros H. apply has_segment_occurs_close in H. revert H.
    apply nil_no_occurrence. discriminate.
  - left. destruct IH as (a & b & d & ->). exists (c :: a), b, d. reflexivity.
  - destruct (match_think (c :: s)) as [r|] eqn:E.
    + left. apply match_think_Some in E. destruct E as (b & E & _).
      exists [], b, r. exact E.
    + right. intros H. apply IH. apply (has_segment_tail _ _ E H).
Qed.

Lemma decomposition s :
  exists l tail, s = with_segments l tail /\ Forall scanned l /\ ~ has_segment tail.
Proof.
  remember (length s) as n eqn:Hn. revert s Hn.
  induction n as [n IH] using lt_wf_ind. intros s Hn.
  destruct (has_segment_dec s) as [H|H].
  - destruct (first_segment _ H) as (a & b & r & -> & Ha & Hb).
    destruct (IH (length r)) with (s := r) as (l & tail & -> & Hl & Ht).
    + rewrite Hn, !length_app. change (length open_tag) with 7. lia.
    + reflexivity.
    + exists ((a, b) :: l), tail. split; [reflexivity|]. split; [|exact Ht].
      constructor; [split; assumption|exact Hl].
  - exists [], s. split; [reflexivity|]. split; [constructor|exact H].
Qed.

End Decomposition.

Lemma startswith_app p v : startswith (p ++ v) p = true.
Proof.
  induction p as [|a p IH]; simpl; [destruct v; reflexivity|].
  rewrite N.eqb_refl. exact IH.
Qed.

Lemma occurs_occursb p s : occurs p s -> occursb p s = true.
Proof.
  intros (u & v & ->). induction u as [|x u IH].
  - change ([] ++ p ++ v) with (p ++ v).
    replace (occursb p (p ++ v))
      with (startswith (p ++ v) p
            || match p ++ v with [] => false | _ :: s' => occursb p s' end)
      by (destruct (p ++ v); reflexivity).
    rewrite startswith_app. reflexivity.
  - simpl. rewrite IH. apply orb_true_r.
Qed.

Lemma occursb_false p s : occursb p s = false -> ~ occurs p s.
Proof. intros E H. apply occurs_occursb in H. congruence. Qed.

(* ===================================================================== *)
(** * [strip]                                                             *)
(* ===================================================================== *)

Lemma lstrip_blank s : blank s -> lstrip s = [].
Proof.
  unfold blank. induction s as [|c s IH]; simpl; [reflexivity|].
  destruct (isspace c); simpl; [exact IH|discriminate].
Qed.

Lemma lstrip_nil_blank s : lstrip s = [] -> blank s.
Proof.
  unfold blank. induction s as [|c s IH]; simpl; [reflexivity|].
  destruct (isspace c); simpl; [exact IH|discriminate].
Qed.

Lemma lstrip_head s c t : lstrip s = c :: t -> isspace c = false.
Proof.
  induction s as [|x s IH]; simpl; [discriminate|].
  destruct (isspace x) eqn:E; [exact IH|]. intros [= <- _]. exact E.
Qed.

Lemma blank_rev s : blank (rev s) -> blank s.
Proof.
  unfold blank. rewrite !forallb_forall. intros H x Hx. apply H.
  apply in_rev. rewrite rev_involutive. exact Hx.
Qed.

Lemma strip_blank s : blank s -> strip s = [].
Proof. intros H. unfold strip. rewrite (lstrip_blank _ H). reflexivity. Qed.

Lemma strip_nil_blank s : strip s = [] -> blank s.
Proof.
  unfold strip, rstrip. intros H.
  assert (E : lstrip (rev (lstrip s)) = []).
  { rewrite <- (rev_involutive (lstrip (rev (lstrip s)))), H. reflexivity. }
  apply lstrip_nil_blank, blank_rev in E.
  apply lstrip_nil_blank. destruct (lstrip s) as [|c t] eqn:L; [reflexivity|].
  apply lstrip_head in L. unfold blank in E. simpl in E. rewrite L in E. discriminate.
Qed.

Lemma str_eqb_nil s : str_eqb s [] = true <-> s = [].
Proof. destruct s; simpl; split; congruence. Qed.

(* ===================================================================== *)
(** * One call                                                            *)
(* ===================================================================== *)

(** What [call_groq] returns and the state it leaves, case by case. *)
Lemma call_groq_run W prompt model temperature max_tokens st :
  let rq := request_of W prompt model temperature max_tokens in
  call_groq W prompt model temperature max_tokens st =
  (Ok match endpoint W (length (posted st)) rq with
      | Raise e => (lit "Error: " ++ exn_str W e, 0%Q)
      | Ok resp =>
          if (status_code resp =? 200)%Z
          then match message_content resp with
               | Ok content =>
                   (clean_response content,
                    (clock W (S (clock_reads st)) - clock W (clock_reads st))%Q)
               | Raise e => (lit "Error: " ++ exn_str W e, 0%Q)
               end
          else (lit "Error: " ++ str_int (status_code resp) ++ lit " - " ++ text resp, 0%Q)
      end,
   after_call W rq st).
Proof.
  intros rq. subst rq.
  unfold call_groq, after_call, request_of, try_except, bind, time_time, requests_post.
  cbn [posted clock_reads screen].
  destruct (endpoint W (length (posted st)) _) as [resp|e]; [|reflexivity].
  unfold message_content, and_then, lift, ret.
  destruct (status_code resp =? 200)%Z; [|reflexivity]. cbn [negb].
  destruct (resp_json resp) as [data|e]; [|reflexivity].
  destruct (getitem data _) as [choices|e]; [|reflexivity].
  destruct (getitem choices _) as [choice|e]; [|reflexivity].
  destruct (getitem choice _) as [message|e]; [|reflexivity].
  destruct (getitem message _) as [content|e]; [|reflexivity].
  destruct (as_str content) as [response_text|e]; reflexivity.
Qed.

Lemma startswith_Error s : startswith (lit "Error: " ++ s) (lit "Error") = true.
Proof. reflexivity. Qed.

(* ===================================================================== *)
(** * Durations                                                           *)
(* ===================================================================== *)

Lemma ltb_lt x y : ltb x y = true <-> (x < y)%Q.
Proof. unfold ltb, Qlt. apply Z.ltb_lt. Qed.

Lemma ltb_ge x y : ltb x y = false <-> (y <= x)%Q.
Proof. unfold ltb, Qle. apply Z.ltb_ge. Qed.



(* ===================================================================== *)
(** * Fixed-point formatting                                              *)
(* ===================================================================== *)

Lemma frac_digits_length n r : length (frac_digits n r) = n.
Proof.
  revert r; induction n as [|n IH]; intros r; simpl; [reflexivity|].
  rewrite length_app, IH. simpl. lia.
Qed.

Lemma digit_isdigit r : isdigit (digit (r mod 10)) = true.
Proof.
  unfold isdigit, digit. pose proof (Z.mod_pos_bound r 10 ltac:(lia)) as B.
  apply andb_true_iff. split; apply N.leb_le; lia.
Qed.

Lemma frac_digits_digits n r : forallb isdigit (frac_digits n r) = true.
Proof.
  revert r; induction n as [|n IH]; intros r; simpl; [reflexivity|].
  rewrite forallb_app, IH. simpl. rewrite digit_isdigit. reflexivity.
Qed.

Lemma string_of_uint_digits d : forallb isdigit (lit (NilEmpty.string_of_uint d)) = true.
Proof. induction d; simpl; try exact IHd; reflexivity. Qed.

Lemma str_int_digits z : (0 <= z)%Z -> forallb isdigit (str_int z) = true.
Proof.
  intros Hz. unfold str_int. destruct z as [|p|p]; [reflexivity| |lia].
  simpl. unfold NilZero.string_of_uint.
  destruct (Pos.to_uint p); try reflexivity; apply string_of_uint_digits.
Qed.

Lemma round_half_even_nonneg x : (0 <= x)%Q -> (0 <= round_half_even x)%Z.
Proof.
  intros Hx. unfold round_half_even.
  assert (Hn : (0 <= Qnum x)%Z).
  { unfold Qle in Hx. simpl in Hx. lia. }
  assert (Hf : (0 <= Qnum x / QDen x)%Z) by (apply Z.div_pos; lia).
  destruct (2 * (Qnum x mod QDen x) ?= QDen x)%Z; [destruct (Z.even _)| |]; lia.
Qed.

(** A number that is not negative is written as digits, a point and exactly
    [n] digits. *)
Lemma format_f_shape n x :
  (0 <= x)%Q -> n <> 0 ->
  exists ip fp, format_f n x = ip ++ lit "." ++ fp
                /\ forallb isdigit ip = true
                /\ forallb isdigit fp = true
                /\ length fp = n.
Proof.
  intros Hx Hn. unfold format_f.
  assert (E : ltb x 0 = false) by (apply ltb_ge; exact Hx). rewrite E.
  set (scale := (10 ^ Z.of_nat n)%Z).
  set (m := round_half_even (Qabs x * inject_Z scale)).
  assert (Hs : (0 < scale)%Z) by (apply Z.pow_pos_nonneg; lia).
  assert (Hm : (0 <= m)%Z).
  { apply round_half_even_nonneg. apply Qmult_le_0_compat; [apply Qabs_nonneg|].
    unfold Qle. simpl. lia. }
  exists (str_int (m / scale)), (frac_digits n (m mod scale)).
  destruct n as [|k]; [contradiction|]. split; [reflexivity|].
  split; [apply str_int_digits; apply Z.div_pos; lia|].
  split; [apply frac_digits_digits|apply frac_digits_length].
Qed.

Lemma round_half_even_integer x k : (x == inject_Z k)%Q -> round_half_even x = k.
Proof.
  unfold Qeq. cbn [Qnum Qden inject_Z]. intros H. unfold round_half_even.
  assert (E : Qnum x = (k * QDen x)%Z) by lia. rewrite E.
  rewrite Z.div_mul, Z.mod_mul by lia.
  assert (C : (2 * 0 ?= QDen x)%Z = Lt) by (apply Z.compare_lt_iff; lia).
  rewrite C. reflexivity.
Qed.

(** ** Rounding to binary64 *)

Lemma Qabs_nonneg_eq x : (0 <= x)%Q -> Qabs x = x.
Proof.
  destruct x as [n d]. unfold Qle. cbn [Qnum Qden]. intros H.
  unfold Qabs. f_equal. lia.
Qed.

Lemma round_half_even_lower N y : (inject_Z N <= y)%Q -> (N <= round_half_even y)%Z.
Proof.
  unfold Qle. cbn [Qnum Qden inject_Z]. intros H. unfold round_half_even.
  assert (F : (N <= Qnum y / QDen y)%Z) by (apply Z.div_le_lower_bound; lia).
  destruct (2 * (Qnum y mod QDen y) ?= QDen y)%Z; [destruct (Z.even _)| |]; lia.
Qed.

Lemma pow2_pos e : (0 <= e)%Z -> (0 < inject_Z (2 ^ e))%Q.
Proof.
  intros H. change 0%Q with (inject_Z 0). rewrite <- Zlt_Qlt.
  apply Z.pow_pos_nonneg; lia.
Qed.

Lemma scale2_nonneg x e : (0 <= x)%Q -> (0 <= scale2 x e)%Q.
Proof.
  intros Hx. unfold scale2. destruct (0 <=? e)%Z eqn:E.
  - apply Z.leb_le in E. apply Qmult_le_0_compat; [exact Hx|].
    apply Qlt_le_weak, pow2_pos. exact E.
  - apply Z.leb_gt in E. apply Qle_shift_div_l; [apply pow2_pos; lia|lra].
Qed.

Lemma round53_nonneg x : (0 <= x)%Q -> (0 <= round53 x)%Q.
Proof.
  intros Hx. unfold round53. destruct (Qeq_bool x 0); [lra|].
  assert (L : ltb x 0 = false) by (apply ltb_ge; exact Hx). rewrite L.
  apply scale2_nonneg. change 0%Q with (inject_Z 0). rewrite <- Zle_Qle.
  apply round_half_even_nonneg. apply scale2_nonneg. apply Qabs_nonneg.
Qed.

(** A quotient that is at least one stays so when it is rounded. *)
Lemma round53_ge_1 x : (1 <= x)%Q -> (1 <= round53 x)%Q.
Proof.
  intros Hx. unfold round53.
  destruct (Qeq_bool x 0) eqn:E; [apply Qeq_bool_eq in E; lra|]. clear E.
  assert (L : ltb x 0 = false) by (apply ltb_ge; lra). rewrite L. clear L.
  rewrite (Qabs_nonneg_eq x) by lra.
  unfold ilog2.
  assert (B : Qle_bool 1 x = true) by (apply Qle_bool_iff; exact Hx). rewrite B. clear B.
  assert (Hf : (1 <= Qfloor x)%Z).
  { change 1%Z with (Qfloor 1). apply Qfloor_resp_le. exact Hx. }
  set (k := Z.log2 (Qfloor x)).
  assert (Hk : (0 <= k)%Z) by apply Z.log2_nonneg.
  assert (Hk2 : (2 ^ k <= Qfloor x)%Z) by (apply Z.log2_spec; lia).
  assert (Hx2 : (inject_Z (2 ^ k) <= x)%Q).
  { apply Qle_trans with (inject_Z (Qfloor x)); [rewrite <- Zle_Qle; exact Hk2|].
    apply Qfloor_le. }
  set (m := round_half_even (scale2 x (- (k - 52)))).
  assert (Hm : (2 ^ 52 <= m)%Z).
  { apply round_half_even_lower. unfold scale2.
    destruct (0 <=? - (k - 52))%Z eqn:E.
    - apply Z.leb_le in E.
      replace (2 ^ 52)%Z with (2 ^ k * 2 ^ (- (k - 52)))%Z
        by (rewrite <- Z.pow_add_r by lia; f_equal; lia).
      rewrite inject_Z_mult. apply Qmult_le_compat_r; [exact Hx2|].
      apply Qlt_le_weak, pow2_pos. lia.
    - apply Z.leb_gt in E. apply Qle_shift_div_l; [apply pow2_pos; lia|].
      rewrite <- inject_Z_mult. rewrite <- Z.pow_add_r by lia.
      replace (52 + - - (k - 52))%Z with k by lia. exact Hx2. }
  unfold scale2. destruct (0 <=? k - 52)%Z eqn:E.
  - apply Z.leb_le in E. rewrite <- inject_Z_mult. change 1%Q with (inject_Z 1).
    rewrite <- Zle_Qle.
    assert (P : (0 < 2 ^ (k - 52))%Z) by (apply Z.pow_pos_nonneg; lia). nia.
  - apply Z.leb_gt in E. apply Qle_shift_div_l; [apply pow2_pos; lia|].
    rewrite Qmult_1_l. rewrite <- Zle_Qle.
    apply Z.le_trans with (2 ^ 52)%Z; [|exact Hm].
    apply Z.pow_le_mono_r; lia.
Qed.

(** One is a binary64 number. *)
Lemma round53_one x : (x == 1)%Q -> (round53 x == 1)%Q.
Proof.
  intros Hx. unfold round53.
  destruct (Qeq_bool x 0) eqn:E; [apply Qeq_bool_eq in E; lra|]. clear E.
  assert (L : ltb x 0 = false) by (apply ltb_ge; lra). rewrite L. clear L.
  rewrite (Qabs_nonneg_eq x) by lra.
  unfold ilog2.
  assert (B : Qle_bool 1 x = true) by (apply Qle_bool_iff; lra). rewrite B. clear B.
  assert (F : Qfloor x = 1%Z) by (rewrite Hx; reflexivity). rewrite F.
  change (Z.log2 1 - 52)%Z with (-52)%Z. unfold scale2 at 2.
  change (0 <=? - -52)%Z with true. cbv iota.
  rewrite (round_half_even_integer (x * inject_Z (2 ^ (- -52))) (2 ^ 52)).
  - reflexivity.
  - rewrite Hx. reflexivity.
Qed.

Lemma truediv_self t : (0 < t)%Q -> (truediv t t == 1)%Q.
Proof. intros H. unfold truediv. apply round53_one. field. lra. Qed.

Lemma speed_ratio_ge_1 t1 t2 : (0 < t1)%Q -> (0 < t2)%Q -> (1 <= speed_ratio t1 t2)%Q.
Proof.
  intros H1 H2. unfold speed_ratio, truediv. apply round53_ge_1. unfold Py.max, Py.min.
  destruct (ltb t1 t2) eqn:E12; destruct (ltb t2 t1) eqn:E21;
    rewrite ?ltb_lt, ?ltb_ge in *; apply Qle_shift_div_l; try assumption; lra.
Qed.

(** ** Reading back what [format_f] writes *)









(* ===================================================================== *)
(** * One press of the button                                             *)
(* ===================================================================== *)

Lemma call_groq_returns W prompt model temperature max_tokens st :
  exists output time,
    call_groq W prompt model temperature max_tokens st =
    (Ok (output, time),
     after_call W (request_of W prompt model temperature max_tokens) st).
Proof.
  pose proof (call_groq_run W prompt model temperature max_tokens st) as H.
  cbv zeta in H. rewrite H.
  match goal with |- context [Ok ?p] => destruct p as [o t] end.
  exists o, t. reflexivity.
Qed.

Lemma bind_Ok {A B} (m : M A) (k : A -> M B) st a st' :
  m st = (Ok a, st') -> bind m k st = k a st'.
Proof. intros H. unfold bind. rewrite H. reflexivity. Qed.

Lemma run_prompt_blank W c st :
  run_prompt_pressed c = true -> blank (user_prompt c) ->
  run_prompt W c st =
  (Ok tt,
   {| clock_reads := clock_reads st;
      posted := posted st;
      screen := screen st ++ [(Page, Warning (lit "Please enter a prompt first."))] |}).
Proof.
  intros Hp Hb. unfold run_prompt. rewrite Hp, (strip_blank _ Hb). reflexivity.
Qed.

(** A press with a prompt that is not blank: two calls, one after the other,
    then the two columns and the summary. *)
Lemma run_prompt_calls W c st :
  run_prompt_pressed c = true -> ~ blank (user_prompt c) ->
  let rq1 := request_of W (user_prompt c) (model_1 c) (temperature c) (max_tokens c) in
  let rq2 := request_of W (user_prompt c) (model_2 c) (temperature c) (max_tokens c) in
  let st0 := {| clock_reads := clock_reads st; posted := posted st;
                screen := screen st ++ [(Page, Spinner (spinner_text c))] |} in
  let st1 := after_call W rq1 st0 in
  let st2 := after_call W rq2 st1 in
  exists output_1 time_1 output_2 time_2,
    call_groq W (user_prompt c) (model_1 c) (temperature c) (max_tokens c) st0
      = (Ok (output_1, time_1), st1)
    /\ call_groq W (user_prompt c) (model_2 c) (temperature c) (max_tokens c) st1
      = (Ok (output_2, time_2), st2)
    /\ run_prompt W c st =
       (Ok tt,
        {| clock_reads := clock_reads st2;
           posted := posted st ++ [rq1; rq2];
           screen :=
             screen st ++ [(Page, Spinner (spinner_text c)); (Page, Columns 2)]
             ++ map (pair Col1)
                  (render_column W (model_1 c) (temperature c) (max_tokens c) output_1 time_1)
             ++ map (pair Col2)
                  (render_column W (model_2 c) (temperature c) (max_tokens c) output_2 time_2)
             ++ map (pair Page) (comparison_summary (model_1 c) (model_2 c) time_1 time_2) |}).
Proof.
  intros Hp Hb rq1 rq2 st0 st1 st2.
  destruct (call_groq_returns W (user_prompt c) (model_1 c) (temperature c) (max_tokens c) st0)
    as (o1 & t1 & E1).
  destruct (call_groq_returns W (user_prompt c) (model_2 c) (temperature c) (max_tokens c) st1)
    as (o2 & t2 & E2).
  exists o1, t1, o2, t2. split; [exact E1|]. split; [exact E2|].
  unfold run_prompt. rewrite Hp.
  destruct (str_eqb (strip (user_prompt c)) []) eqn:Es.
  { exfalso. apply Hb. apply strip_nil_blank. apply str_eqb_nil. exact Es. }
  rewrite (bind_Ok _ _ st tt st0) by reflexivity.
  rewrite (bind_Ok _ _ st0 _ st1 E1), (bind_Ok _ _ st1 _ st2 E2).
  unfold bind, emit. cbn [posted clock_reads screen after_call st2 st1 st0 map].
  f_equal. f_equal.
  - rewrite <- !app_assoc. reflexivity.
  - rewrite <- !app_assoc. reflexivity.
Qed.

(* ===================================================================== *)
(** * Properties of the specification                                     *)
(* ===================================================================== *)

(** ** C1 *)

(** C1. Whenever a call fails, because [requests.post] raised, because the
    status code is not 200, or because reading the body raised, [call_groq]
    returns a text that begins with "Error" (holding the status code and the
    raw body, or the message of the exception) and the elapsed time [0.0]. *)
Theorem call_groq_failure_is_error W prompt model temperature max_tokens st txt :
  failure W (endpoint W (length (posted st))
               (request_of W prompt model temperature max_tokens)) txt ->
  call_groq W prompt model temperature max_tokens st
    = (Ok (txt, 0%Q), after_call W (request_of W prompt model temperature max_tokens) st)
  /\ startswith txt (lit "Error") = true.
Proof.
  intros H. pose proof (call_groq_run W prompt model temperature max_tokens st) as R.
  cbv zeta in R. rewrite R. clear R.
  remember (endpoint W (length (posted st))
              (request_of W prompt model temperature max_tokens)) as reply eqn:E.
  clear E. destruct H as [e|resp Hs|resp e Hs Hm].
  - split; reflexivity.
  - apply Z.eqb_neq in Hs. rewrite Hs. split; reflexivity.
  - apply Z.eqb_eq in Hs. rewrite Hs, Hm. split; reflexivity.
Qed.

Lemma call_groq_failure_is_error_witness :
  call_groq env_500 (lit "Say hi") (lit "gemma2-9b-it") (7 # 10)%Q 400 initial
    = (Ok (lit "Error: 500 - boom", 0%Q),
       after_call env_500
         (request_of env_500 (lit "Say hi") (lit "gemma2-9b-it") (7 # 10)%Q 400) initial)
  /\ startswith (lit "Error: 500 - boom") (lit "Error") = true.
Proof.
  apply (call_groq_failure_is_error env_500 (lit "Say hi") (lit "gemma2-9b-it")
           (7 # 10)%Q 400 initial (lit "Error: 500 - boom")).
  apply (status_failure env_500 error_response). vm_compute. discriminate.
Defined.

(** ** C3 *)

(** C3, as amended.  When the endpoint answers 200 with a well-formed body,
    [call_groq] returns [clean_response] of the first completion's message
    content, and the elapsed time is the difference of the two clock readings
    taken around the POST: it is strictly positive exactly when the clock
    advanced between them. *)
Theorem call_groq_success W prompt model temperature max_tokens st resp content :
  endpoint W (length (posted st)) (request_of W prompt model temperature max_tokens)
    = Ok resp ->
  status_code resp = 200%Z ->
  message_content resp = Ok content ->
  let elapsed := (clock W (S (clock_reads st)) - clock W (clock_reads st))%Q in
  call_groq W prompt model temperature max_tokens st
    = (Ok (clean_response content, elapsed),
       after_call W (request_of W prompt model temperature max_tokens) st)
  /\ ((0 < elapsed)%Q <-> (clock W (clock_reads st) < clock W (S (clock_reads st)))%Q).
Proof.
  intros He Hs Hm elapsed.
  pose proof (call_groq_run W prompt model temperature max_tokens st) as R.
  cbv zeta in R. rewrite R, He, Hm. apply Z.eqb_eq in Hs. rewrite Hs.
  split; [reflexivity|]. unfold elapsed. split; intros H; lra.
Qed.

Lemma call_groq_success_witness :
  call_groq env_hello (lit "Say hi") (lit "gemma2-9b-it") (7 # 10)%Q 400 initial
    = (Ok (clean_response (lit "Hello there"), (ticking 1 - ticking 0)%Q),
       after_call env_hello
         (request_of env_hello (lit "Say hi") (lit "gemma2-9b-it") (7 # 10)%Q 400) initial)
  /\ ((0 < ticking 1 - ticking 0)%Q <-> (ticking 0 < ticking 1)%Q).
Proof.
  apply (call_groq_success env_hello (lit "Say hi") (lit "gemma2-9b-it") (7 # 10)%Q 400
           initial (ok_response (lit "Hello there")) (lit "Hello there"));
    reflexivity.
Defined.

(** C3 as stated fails: with a clock that gives the same reading before and
    after the POST, a 200 answer with a well-formed body comes back with an
    elapsed time that is not strictly positive. *)
Lemma call_groq_success_elapsed_not_positive :
  ~ (forall W prompt model temperature max_tokens st resp content,
       endpoint W (length (posted st)) (request_of W prompt model temperature max_tokens)
         = Ok resp ->
       status_code resp = 200%Z ->
       message_content resp = Ok content ->
       exists elapsed st',
         call_groq W prompt model temperature max_tokens st
           = (Ok (clean_response content, elapsed), st')
         /\ (0 < elapsed)%Q).
Proof.
  intros H.
  destruct (H env_frozen (lit "Say hi") (lit "llama-3.1-8b-instant") (7 # 10)%Q 400%Z
              initial (ok_response (lit "Hello there")) (lit "Hello there")
              eq_refl eq_refl eq_refl) as (elapsed & st' & E & Hpos).
  pose proof (call_groq_run env_frozen (lit "Say hi") (lit "llama-3.1-8b-instant")
                (7 # 10)%Q 400%Z initial) as R.
  cbv zeta in R. rewrite R in E. clear R.
  assert (He : elapsed = (frozen 1 - frozen 0)%Q).
  { vm_compute in E. injection E as E1 E2. subst elapsed. reflexivity. }
  subst elapsed. vm_compute in Hpos. discriminate.
Qed.

(** ** C2 *)

(** C2, as amended.  [clean_response] is a function of its input.  On a text
    with no opening marker followed later by a closing marker it returns the
    text trimmed.  Every text is a sequence of scanned segments, each running
    from the first opening marker still ahead to the first closing marker
    after it, followed by a tail without segment; [clean_response] removes
    each scanned segment, markers and content, whatever characters the content
    holds, keeps the text around them unchanged, and trims the result.  What
    is kept is not scanned again. *)
Theorem clean_response_removes_scanned_segments :
  (forall text, ~ has_segment text -> clean_response text = strip text)
  /\ (forall l tail, Forall scanned l -> ~ has_segment tail ->
        clean_response (with_segments l tail) = strip (without_segments l tail))
  /\ (forall text, exists l tail,
        text = with_segments l tail /\ Forall scanned l /\ ~ has_segment tail).
Proof.
  split; [|split].
  - intros text H. unfold clean_response. rewrite sub_think_no_segment by exact H.
    reflexivity.
  - intros l tail Hl Ht. unfold clean_response.
    rewrite sub_think_with_segments by assumption. reflexivity.
  - apply decomposition.
Qed.

Lemma clean_response_removes_scanned_segments_witness :
  clean_response
    (with_segments [ (lit " Hi", lit "step 1" ++ [10%N] ++ lit "step 2");
                     (lit " there", []) ] (lit "! "))
  = strip (lit " Hi there! ").
Proof.
  apply (proj1 (proj2 clean_response_removes_scanned_segments)
           [ (lit " Hi", lit "step 1" ++ [10%N] ++ lit "step 2"); (lit " there", []) ]
           (lit "! ")).
  - repeat constructor; apply occursb_false; vm_compute; reflexivity.
  - intros H. apply has_segment_occurs_close in H. revert H.
    apply occursb_false. vm_compute. reflexivity.
Defined.

(** C2 as stated fails: a well-formed segment of the input can stand in the
    output, because the text kept around a removed segment is not scanned
    again; and the text after the first closing marker of a segment is kept
    even when a later closing marker follows the same opening marker. *)
Lemma clean_response_keeps_a_segment :
  ~ (forall text a b c,
       text = a ++ Re.open_tag ++ b ++ Re.close_tag ++ c ->
       ~ occurs (Re.open_tag ++ b ++ Re.close_tag) (clean_response text))
  /\ clean_response (lit "<thi<think></think>nk></think>") = lit "<think></think>"
  /\ clean_response (lit "<think>a</think>b</think>") = lit "b</think>".
Proof.
  split; [|split; vm_compute; reflexivity].
  intros H.
  apply (H (lit "<thi<think></think>nk></think>") (lit "<thi") [] (lit "nk></think>")
           eq_refl).
  exists [], []. vm_compute. reflexivity.
Qed.

(** ** C9 *)

(** C9, as amended.  An opening marker with no closing marker after it stays
    in place with all the text after it: the output is the trimmed
    concatenation of the text before the marker, itself cleaned of its
    segments, the marker and the text after it.  When the text before the
    marker holds no segment, the output is the input trimmed. *)
Theorem clean_response_unterminated :
  (forall a b, ~ occurs Re.close_tag b ->
     clean_response (a ++ Re.open_tag ++ b) = strip (Re.sub_think a ++ Re.open_tag ++ b))
  /\ (forall a b, ~ occurs Re.close_tag b -> ~ has_segment a ->
        clean_response (a ++ Re.open_tag ++ b) = strip (a ++ Re.open_tag ++ b)).
Proof.
  split.
  - intros a b Hb. unfold clean_response. rewrite sub_think_unterminated by exact Hb.
    reflexivity.
  - intros a b Hb Ha. unfold clean_response. rewrite sub_think_unterminated by exact Hb.
    rewrite sub_think_no_segment by exact Ha. reflexivity.
Qed.

Lemma clean_response_unterminated_witness :
  clean_response (lit " Sure. " ++ Re.open_tag ++ lit "let me see ")
  = strip (lit " Sure. " ++ Re.open_tag ++ lit "let me see ").
Proof.
  apply (proj2 clean_response_unterminated (lit " Sure. ") (lit "let me see ")).
  - apply occursb_false. vm_compute. reflexivity.
  - intros H. apply has_segment_occurs_close in H. revert H.
    apply occursb_false. vm_compute. reflexivity.
Defined.

(** C9 as stated fails: the text below holds an opening marker with no
    closing marker after it, yet the segment before that marker is removed,
    so the output is not the input trimmed. *)
Lemma clean_response_unterminated_after_segment :
  ~ (forall text a b,
       text = a ++ Re.open_tag ++ b -> ~ occurs Re.close_tag b ->
       clean_response text = strip text).
Proof.
  intros H.
  assert (E : clean_response (lit "<think>a</think><think>b")
              = strip (lit "<think>a</think><think>b")).
  { apply (H _ (lit "<think>a</think>") (lit "b") eq_refl).
    apply occursb_false. vm_compute. reflexivity. }
  vm_compute in E. discriminate.
Qed.

(** ** C4 *)

(** C4, as amended.  The model named in the summary is the one with the
    strictly smaller duration; when the two durations are equal the second
    model, [model_2], is named. *)
Theorem faster_model_named model_1 model_2 time_1 time_2 :
  ((time_1 < time_2)%Q -> faster_model model_1 model_2 time_1 time_2 = model_1)
  /\ ((time_2 < time_1)%Q -> faster_model model_1 model_2 time_1 time_2 = model_2)
  /\ ((time_1 == time_2)%Q -> faster_model model_1 model_2 time_1 time_2 = model_2)
  /\ exists rest,
       summary_line model_1 model_2 time_1 time_2
       = faster_model model_1 model_2 time_1 time_2 ++ lit " was " ++ rest.
Proof.
  unfold faster_model. repeat split.
  - intros H. apply ltb_lt in H. rewrite H. reflexivity.
  - intros H. assert (E : ltb time_1 time_2 = false) by (apply ltb_ge; lra).
    rewrite E. reflexivity.
  - intros H. assert (E : ltb time_1 time_2 = false) by (apply ltb_ge; lra).
    rewrite E. reflexivity.
  - unfold summary_line. eexists. reflexivity.
Qed.

Lemma faster_model_named_witness :
  faster_model (lit "llama-3.1-8b-instant") (lit "gemma2-9b-it") (1 # 2) 1
    = lit "llama-3.1-8b-instant"
  /\ faster_model (lit "llama-3.1-8b-instant") (lit "gemma2-9b-it") 1 (1 # 2)
    = lit "gemma2-9b-it"
  /\ faster_model (lit "llama-3.1-8b-instant") (lit "gemma2-9b-it") 1 (2 # 2)
    = lit "gemma2-9b-it".
Proof.
  split; [|split].
  - apply (proj1 (faster_model_named (lit "llama-3.1-8b-instant") (lit "gemma2-9b-it")
                    (1 # 2) 1)). reflexivity.
  - apply (proj1 (proj2 (faster_model_named (lit "llama-3.1-8b-instant")
                           (lit "gemma2-9b-it") 1 (1 # 2)))). reflexivity.
  - apply (proj1 (proj2 (proj2 (faster_model_named (lit "llama-3.1-8b-instant")
                                  (lit "gemma2-9b-it") 1 (2 # 2))))). reflexivity.
Defined.

(** C4 as stated fails on a tie: the second model is named, not the first. *)
Lemma faster_model_tie_names_second :
  ~ (forall model_1 model_2 time_1 time_2,
       (time_1 == time_2)%Q -> faster_model model_1 model_2 time_1 time_2 = model_1).
Proof.
  intros H.
  specialize (H (lit "llama-3.1-8b-instant") (lit "gemma2-9b-it") 1%Q 1%Q (Qeq_refl 1)).
  vm_compute in H. discriminate.
Qed.

(** ** C5 *)




(** ** C6 *)

(** C6.  The two sampling sliders, top-p and frequency penalty, are read into
    the controls and never transmitted: a run is the same whatever their
    values, the body of a request holds the four keys model, messages,
    temperature and max_tokens only, and the two bodies sent for a prompt
    that is not blank are built from the prompt, the two models, the
    temperature and the token budget. *)
Theorem sampling_controls_not_transmitted W c p f st :
  run_prompt W (with_sampling c p f) st = run_prompt W c st
  /\ (forall prompt model temperature max_tokens,
        keys (build_payload prompt model temperature max_tokens)
        = [ lit "model"; lit "messages"; lit "temperature"; lit "max_tokens" ])
  /\ (run_prompt_pressed c = true -> ~ blank (user_prompt c) ->
      map json (posted (snd (run_prompt W (with_sampling c p f) st)))
      = map json (posted st)
        ++ [ build_payload (user_prompt c) (model_1 c) (temperature c) (max_tokens c);
             build_payload (user_prompt c) (model_2 c) (temperature c) (max_tokens c) ]).
Proof.
  split; [reflexivity|]. split; [reflexivity|].
  intros Hp Hb. change (run_prompt W (with_sampling c p f) st) with (run_prompt W c st).
  destruct (run_prompt_calls W c st Hp Hb) as (o1 & t1 & o2 & t2 & _ & _ & E).
  rewrite E. cbn [snd posted]. rewrite map_app. reflexivity.
Qed.

Lemma sampling_controls_not_transmitted_witness :
  map json (posted (snd (run_prompt env_hello
                           (with_sampling (say_hi (lit "Say hi")) (1 # 2) 1) initial)))
  = map json (posted initial)
    ++ [ build_payload (lit "Say hi") (lit "llama-3.1-8b-instant") (7 # 10) 400;
         build_payload (lit "Say hi") (lit "gemma2-9b-it") (7 # 10) 400 ].
Proof.
  apply (proj2 (proj2 (sampling_controls_not_transmitted env_hello
                         (say_hi (lit "Say hi")) (1 # 2) 1 initial))).
  - reflexivity.
  - unfold blank. vm_compute. discriminate.
Defined.

(** ** C7 *)

(** C7, as amended.  In the summary line the ratio of the slower to the
    faster duration is written with one digit after the point and the
    absolute difference with two. *)
Theorem summary_line_decimals model_1 model_2 time_1 time_2 :
  (0 < time_1)%Q -> (0 < time_2)%Q ->
  exists ri rf di df,
    format_f 1 (speed_ratio time_1 time_2) = ri ++ lit "." ++ rf
    /\ format_f 2 (speed_diff time_1 time_2) = di ++ lit "." ++ df
    /\ summary_line model_1 model_2 time_1 time_2
       = faster_model model_1 model_2 time_1 time_2 ++ lit " was "
         ++ (ri ++ lit "." ++ rf) ++ lit "x faster ("
         ++ (di ++ lit "." ++ df) ++ lit "s difference)"
    /\ length rf = 1 /\ length df = 2
    /\ forallb isdigit (ri ++ rf ++ di ++ df) = true.
Proof.
  intros H1 H2.
  destruct (format_f_shape 1 (speed_ratio time_1 time_2)) as (ri & rf & Er & Hri & Hrf & Lr).
  { pose proof (speed_ratio_ge_1 time_1 time_2 H1 H2). lra. }
  { discriminate. }
  destruct (format_f_shape 2 (speed_diff time_1 time_2)) as (di & df & Ed & Hdi & Hdf & Ld).
  { apply Qabs_nonneg. }
  { discriminate. }
  exists ri, rf, di, df. split; [exact Er|]. split; [exact Ed|].
  split; [unfold summary_line; rewrite Er, Ed; reflexivity|].
  split; [exact Lr|]. split; [exact Ld|].
  rewrite !forallb_app, Hri, Hrf, Hdi, Hdf. reflexivity.
Qed.

Lemma summary_line_decimals_witness :
  exists ri rf di df,
    format_f 1 (speed_ratio (1 # 2) 1) = ri ++ lit "." ++ rf
    /\ format_f 2 (speed_diff (1 # 2) 1) = di ++ lit "." ++ df
    /\ summary_line (lit "llama-3.1-8b-instant") (lit "gemma2-9b-it") (1 # 2) 1
       = faster_model (lit "llama-3.1-8b-instant") (lit "gemma2-9b-it") (1 # 2) 1
         ++ lit " was " ++ (ri ++ lit "." ++ rf) ++ lit "x faster ("
         ++ (di ++ lit "." ++ df) ++ lit "s difference)"
    /\ length rf = 1 /\ length df = 2
    /\ forallb isdigit (ri ++ rf ++ di ++ df) = true.
Proof.
  apply (summary_line_decimals (lit "llama-3.1-8b-instant") (lit "gemma2-9b-it") (1 # 2) 1);
    reflexivity.
Defined.

(** C7 as stated fails: the ratio is not written with two decimal places.
    For durations 0.50 s and 1.00 s the line reads "2.0x", as in the example
    the specification gives. *)
Lemma summary_line_ratio_not_two_decimals :
  ~ (forall model_1 model_2 time_1 time_2,
       (0 < time_1)%Q -> (0 < time_2)%Q ->
       summary_line model_1 model_2 time_1 time_2
       = faster_model model_1 model_2 time_1 time_2 ++ lit " was "
         ++ format_f 2 (speed_ratio time_1 time_2) ++ lit "x faster ("
         ++ format_f 2 (speed_diff time_1 time_2) ++ lit "s difference)")
  /\ summary_line (lit "llama-3.1-8b-instant") (lit "gemma2-9b-it") (1 # 2) 1
     = lit "llama-3.1-8b-instant was 2.0x faster (0.50s difference)".
Proof.
  split; [|vm_compute; reflexivity].
  intros H.
  specialize (H (lit "llama-3.1-8b-instant") (lit "gemma2-9b-it") (1 # 2)%Q 1%Q
                eq_refl eq_refl).
  vm_compute in H. discriminate.
Qed.

(** ** C8 *)

(** C8.  When the button is pressed with a blank prompt, empty or white space
    only, no request is sent, the clock is not read, and the page gets one new
    element, the warning: no column is rendered. *)
Theorem blank_prompt_warns W c st :
  run_prompt_pressed c = true ->
  blank (user_prompt c) ->
  run_prompt W c st =
  (Ok tt,
   {| clock_reads := clock_reads st;
      posted := posted st;
      screen := screen st ++ [(Page, Warning (lit "Please enter a prompt first."))] |}).
Proof. intros Hp Hb. apply run_prompt_blank; assumption. Qed.

Lemma blank_prompt_warns_witness :
  run_prompt env_hello (say_hi (lit "  " ++ [9%N; 10%N; 160%N; 12288%N])) initial =
  (Ok tt,
   {| clock_reads := 0;
      posted := [];
      screen := [(Page, Warning (lit "Please enter a prompt first."))] |}).
Proof.
  apply (blank_prompt_warns env_hello (say_hi (lit "  " ++ [9%N; 10%N; 160%N; 12288%N]))
           initial); reflexivity.
Defined.

(** ** C10 *)

(** C10.  A column whose text is empty or begins with "Error" shows the
    header, the parameters and the text, and none of the derived metrics
    (response time, word count, words per second), whatever the duration.
    This also holds for the result of a successful call, status 200 and a
    well-formed body, whose cleaned content is such a text: its column is the
    one a failed call with that text gets. *)
Theorem metrics_suppressed W model temperature max_tokens output :
  output = [] \/ startswith output (lit "Error") = true ->
  (forall time,
     render_column W model temperature max_tokens output time
     = [ Subheader model;
         Info (lit "Temperature: " ++ float_str W temperature
               ++ lit " | Max Tokens: " ++ str_int max_tokens);
         Write output ])
  /\ (forall prompt st resp content,
        endpoint W (length (posted st)) (request_of W prompt model temperature max_tokens)
          = Ok resp ->
        status_code resp = 200%Z ->
        message_content resp = Ok content ->
        clean_response content = output ->
        exists time,
          fst (call_groq W prompt model temperature max_tokens st) = Ok (output, time)
          /\ render_column W model temperature max_tokens output time
             = render_column W model temperature max_tokens output 0%Q).
Proof.
  intros H.
  assert (R : forall time,
             render_column W model temperature max_tokens output time
             = [ Subheader model;
                 Info (lit "Temperature: " ++ float_str W temperature
                       ++ lit " | Max Tokens: " ++ str_int max_tokens);
                 Write output ]).
  { intros time. unfold render_column. destruct H as [->|E].
    - reflexivity.
    - rewrite E, andb_false_r. reflexivity. }
  split; [exact R|].
  intros prompt st resp content He Hs Hm Hc.
  pose proof (call_groq_run W prompt model temperature max_tokens st) as C.
  cbv zeta in C. rewrite He, Hm in C. apply Z.eqb_eq in Hs. rewrite Hs, Hc in C.
  eexists. rewrite C. split; [reflexivity|]. rewrite !R. reflexivity.
Qed.

Lemma metrics_suppressed_witness :
  (forall time,
     render_column env_said_error (lit "gemma2-9b-it") (7 # 10) 400
       (lit "Error: 500 - boom") time
     = [ Subheader (lit "gemma2-9b-it");
         Info (lit "Temperature: " ++ float_str env_said_error (7 # 10)
               ++ lit " | Max Tokens: " ++ str_int 400);
         Write (lit "Error: 500 - boom") ])
  /\ exists time,
       fst (call_groq env_said_error (lit "Say hi") (lit "gemma2-9b-it") (7 # 10) 400 initial)
       = Ok (lit "Error: 500 - boom", time)
       /\ render_column env_said_error (lit "gemma2-9b-it") (7 # 10) 400
            (lit "Error: 500 - boom") time
          = render_column env_said_error (lit "gemma2-9b-it") (7 # 10) 400
              (lit "Error: 500 - boom") 0%Q.
Proof.
  destruct (metrics_suppressed env_said_error (lit "gemma2-9b-it") (7 # 10) 400
              (lit "Error: 500 - boom") (or_intror eq_refl)) as [R S].
  split; [exact R|].
  apply (S (lit "Say hi") initial (ok_response (lit "Error: 500 - boom"))
           (lit "Error: 500 - boom")); reflexivity.
Defined.

(** A model that answers 200 with the text of an error, or with nothing but a
    reasoning segment, is shown as a failed call is: the same column. *)
Example said_error_looks_failed :
  let call W := fst (call_groq W (lit "Say hi") (lit "gemma2-9b-it") (7 # 10) 400 initial) in
  let column W r :=
    match r with
    | Ok (output, time) => render_column W (lit "gemma2-9b-it") (7 # 10) 400 output time
    | Raise _ => []
    end in
  column env_said_error (call env_said_error) = column env_500 (call env_500)
  /\ call env_500 = Ok (lit "Error: 500 - boom", 0%Q)
  /\ call env_said_error = Ok (lit "Error: 500 - boom", (ticking 1 - ticking 0)%Q)
  /\ clean_response (lit " <think>I should say hi</think> ") = [].
Proof. vm_compute. repeat split; reflexivity. Qed.

(* ===================================================================== *)
(** * Further properties of the script                                    *)
(* ===================================================================== *)

(** ** Helper facts *)

Lemma failure_starts_with_Error W reply txt :
  failure W reply txt -> startswith txt (lit "Error") = true.
Proof. intros [e|resp Hs|resp e Hs Hm]; reflexivity. Qed.

Lemma failure_not_succeeded W reply txt content :
  failure W reply txt -> ~ succeeded reply content.
Proof.
  intros [e|resp Hs|resp e Hs Hm] (r & E & S & M).
  - discriminate.
  - injection E as <-. contradiction.
  - injection E as <-. congruence.
Qed.

Lemma failure_text_functional W reply t1 t2 :
  failure W reply t1 -> failure W reply t2 -> t1 = t2.
Proof.
  intros H1. inversion H1; subst; intros H2; inversion H2; subst; try reflexivity;
    try contradiction; congruence.
Qed.

(** The result of a call is an error text with time zero, or the cleaned
    content with the measured time. *)
Lemma call_groq_cases W prompt model temperature max_tokens st output time st' :
  call_groq W prompt model temperature max_tokens st = (Ok (output, time), st') ->
  let reply := endpoint W (length (posted st))
                 (request_of W prompt model temperature max_tokens) in
  (exists content,
      succeeded reply content /\ output = clean_response content
      /\ time = (clock W (S (clock_reads st)) - clock W (clock_reads st))%Q)
  \/ (failure W reply output /\ time = 0%Q).
Proof.
  intros E reply.
  pose proof (call_groq_run W prompt model temperature max_tokens st) as R.
  cbv zeta in R. rewrite R in E. clear R. fold reply in E.
  injection E as E _. revert E.
  destruct reply as [resp|e].
  - destruct (status_code resp =? 200)%Z eqn:Hs.
    + destruct (message_content resp) as [content|e] eqn:Hm; intros [= <- <-].
      * left. exists content. split; [|split; reflexivity].
        exists resp. apply Z.eqb_eq in Hs. repeat split; assumption.
      * right. split; [|reflexivity]. apply Z.eqb_eq in Hs.
        apply parsing_failure; assumption.
    + intros [= <- <-]. right. split; [|reflexivity]. apply Z.eqb_neq in Hs.
      apply status_failure; assumption.
  - intros [= <- <-]. right. split; [|reflexivity]. apply transport_failure.
Qed.

Lemma render_column_head W model temperature max_tokens output time :
  output = [] \/ startswith output (lit "Error") = true ->
  render_column W model temperature max_tokens output time
  = column_head W model temperature max_tokens output.
Proof.
  intros H. unfold render_column, column_head. destruct H as [->|E].
  - reflexivity.
  - rewrite E, andb_false_r. reflexivity.
Qed.

Lemma after_call_posted W rq st : posted (after_call W rq st) = posted st ++ [rq].
Proof. reflexivity. Qed.

Lemma after_call_reads W rq st :
  clock_reads (after_call W rq st) = S (clock_reads st)
  \/ clock_reads (after_call W rq st) = S (S (clock_reads st)).
Proof.
  unfold after_call. cbn [clock_reads].
  destruct (endpoint W (length (posted st)) rq); [right|left]; reflexivity.
Qed.

(** ** The invoker *)

(** X1.  [call_groq] never lets an exception escape: whatever the endpoint
    does, it returns a pair.  It sends exactly one POST, to the fixed URL,
    with the bearer key in the Authorization header and the JSON content
    type, reads the clock at most twice and writes nothing on the page. *)
Theorem call_groq_total W prompt model temperature max_tokens st :
  exists output time st',
    call_groq W prompt model temperature max_tokens st = (Ok (output, time), st')
    /\ posted st' = posted st
         ++ [ {| url := GROQ_API_URL;
                 headers := VDict [ (lit "Authorization", VStr (lit "Bearer " ++ api_key W));
                                    (lit "Content-Type", VStr (lit "application/json")) ];
                 json := build_payload prompt model temperature max_tokens |} ]
    /\ screen st' = screen st
    /\ clock_reads st < clock_reads st' <= clock_reads st + 2.
Proof.
  destruct (call_groq_returns W prompt model temperature max_tokens st) as (o & t & E).
  exists o, t, (after_call W (request_of W prompt model temperature max_tokens) st).
  split; [exact E|]. split; [reflexivity|]. split; [reflexivity|].
  destruct (after_call_reads W (request_of W prompt model temperature max_tokens) st) as [H|H];
    rewrite H; lia.
Qed.

(** X2.  The elapsed time tells a failure from a success only one way round:
    a call that returns a time other than zero succeeded (status 200 and a
    well-formed body), its text is the cleaned content and its time the
    difference of the two clock readings. *)
Theorem call_groq_nonzero_time_succeeded W prompt model temperature max_tokens st
    output time st' :
  call_groq W prompt model temperature max_tokens st = (Ok (output, time), st') ->
  ~ (time == 0)%Q ->
  exists content,
    succeeded (endpoint W (length (posted st))
                 (request_of W prompt model temperature max_tokens)) content
    /\ output = clean_response content
    /\ time = (clock W (S (clock_reads st)) - clock W (clock_reads st))%Q.
Proof.
  intros E Hz. destruct (call_groq_cases _ _ _ _ _ _ _ _ _ E) as [H|[_ H]].
  - exact H.
  - exfalso. apply Hz. rewrite H. reflexivity.
Qed.

Lemma call_groq_nonzero_time_succeeded_witness :
  exists content,
    succeeded (endpoint env_hello (length (posted initial))
                 (request_of env_hello (lit "Say hi") (lit "gemma2-9b-it") (7 # 10) 400))
      content
    /\ lit "Hello there" = clean_response content
    /\ (ticking 1 - ticking 0)%Q
       = (clock env_hello (S (clock_reads initial)) - clock env_hello (clock_reads initial))%Q.
Proof.
  apply (call_groq_nonzero_time_succeeded env_hello (lit "Say hi") (lit "gemma2-9b-it")
           (7 # 10) 400 initial (lit "Hello there") (ticking 1 - ticking 0)%Q
           (after_call env_hello
              (request_of env_hello (lit "Say hi") (lit "gemma2-9b-it") (7 # 10) 400)
              initial)).
  - reflexivity.
  - vm_compute. discriminate.
Defined.

(** X3.  The body of a 200 answer is well formed exactly when the parsed JSON
    is an object whose "choices" is a list, whose first element is an object
    whose "message" is an object whose "content" is a string; further
    choices and further keys are ignored. *)
Theorem message_content_well_formed resp content :
  message_content resp = Ok content
  <-> exists d rest d1 d2,
        resp_json resp = Ok (VDict d)
        /\ dict_get d (lit "choices") = Some (VList (VDict d1 :: rest))
        /\ dict_get d1 (lit "message") = Some (VDict d2)
        /\ dict_get d2 (lit "content") = Some (VStr content).
Proof.
  unfold message_content, and_then. split.
  - destruct (resp_json resp) as [data|e]; [|discriminate].
    destruct data as [| | | | |l|d]; try discriminate.
    cbn [getitem]. destruct (dict_get d (lit "choices")) as [choices|] eqn:E0; [|discriminate].
    destruct choices as [| | | |s|l|d0]; try discriminate.
    + (* a string: its first character has no "message" *)
      destruct s as [|c s]; [discriminate|]. cbn. discriminate.
    + destruct l as [|choice rest]; [discriminate|].
      change (getitem (VList (choice :: rest)) (IInt 0)) with (Ok (A:=value) choice).
      destruct choice as [| | | | | |d1]; try discriminate.
      cbn [getitem]. destruct (dict_get d1 (lit "message")) as [message|] eqn:E1;
        [|discriminate].
      destruct message as [| | | | | |d2]; try discriminate.
      cbn [getitem]. destruct (dict_get d2 (lit "content")) as [c|] eqn:E2; [|discriminate].
      destruct c; try discriminate. cbn [as_str]. intros [= <-].
      exists d, rest, d1, d2. repeat split; assumption.
  - intros (d & rest & d1 & d2 & E & E0 & E1 & E2). rewrite E. cbn [getitem].
    rewrite E0.
    change (getitem (VList (VDict d1 :: rest)) (IInt 0)) with (Ok (A:=value) (VDict d1)).
    cbn [getitem]. rewrite E1. cbn [getitem]. rewrite E2. reflexivity.
Qed.

Lemma message_content_well_formed_witness :
  message_content
    {| status_code := 200; text := [];
       resp_json :=
         Ok (VDict [ (lit "id", VStr (lit "chatcmpl-1"));
                     (lit "choices",
                      VList [ VDict [ (lit "index", VInt 0);
                                      (lit "message",
                                       VDict [ (lit "role", VStr (lit "assistant"));
                                               (lit "content", VStr (lit "Hello")) ]) ];
                              VNone ]) ]) |}
  = Ok (lit "Hello").
Proof.
  apply (proj2 (message_content_well_formed _ (lit "Hello"))).
  eexists _, _, _, _. repeat split; reflexivity.
Defined.

(** X4.  A 200 answer whose body is not of the expected shape is turned into
    an error text with time zero: the exception of [resp.json()] when the body
    is not JSON, [KeyError] when the object has no "choices", [IndexError]
    when "choices" is an empty list, and [TypeError] when the content is not
    a string. *)
Theorem malformed_body_is_error W prompt model temperature max_tokens st resp :
  endpoint W (length (posted st)) (request_of W prompt model temperature max_tokens)
    = Ok resp ->
  status_code resp = 200%Z ->
  let returns e :=
    fst (call_groq W prompt model temperature max_tokens st)
    = Ok (lit "Error: " ++ exn_str W e, 0%Q) in
  (forall e, resp_json resp = Raise e -> returns e)
  /\ (forall d, resp_json resp = Ok (VDict d) -> dict_get d (lit "choices") = None ->
        returns (KeyError (IStr (lit "choices"))))
  /\ (forall d, resp_json resp = Ok (VDict d) ->
        dict_get d (lit "choices") = Some (VList []) -> returns IndexError)
  /\ (forall v, resp_json resp = Ok (completion_body v) ->
        (forall s, v <> VStr s) -> returns (TypeError v)).
Proof.
  intros He Hs returns.
  pose proof (call_groq_run W prompt model temperature max_tokens st) as R.
  cbv zeta in R. rewrite He in R. apply Z.eqb_eq in Hs. rewrite Hs in R.
  unfold returns. rewrite R. cbn [fst]. clear R.
  unfold message_content, and_then.
  split; [|split; [|split]].
  - intros e E. rewrite E. reflexivity.
  - intros d E E0. rewrite E. cbn [getitem]. rewrite E0. reflexivity.
  - intros d E E0. rewrite E. cbn [getitem]. rewrite E0. reflexivity.
  - intros v E Hv. rewrite E.
    destruct v; try reflexivity. exfalso. apply (Hv s). reflexivity.
Qed.

Lemma malformed_body_is_error_witness :
  let W := sample_env ticking (fun _ _ => Ok {| status_code := 200; text := lit "{}";
                                                resp_json := Ok (VDict []) |}) in
  fst (call_groq W (lit "Say hi") (lit "gemma2-9b-it") (7 # 10) 400 initial)
  = Ok (lit "Error: 'choices'", 0%Q).
Proof.
  intros W.
  apply (proj1 (proj2 (malformed_body_is_error W (lit "Say hi") (lit "gemma2-9b-it")
                         (7 # 10) 400 initial
                         {| status_code := 200; text := lit "{}";
                            resp_json := Ok (VDict []) |} eq_refl eq_refl)) []);
    reflexivity.
Defined.

(** ** The button handler *)

Lemma run_prompt_idle W c st :
  run_prompt_pressed c = false -> run_prompt W c st = (Ok tt, st).
Proof. intros H. unfold run_prompt. rewrite H. reflexivity. Qed.

Lemma blank_dec s : blank s \/ ~ blank s.
Proof.
  unfold blank. destruct (forallb isspace s); [left; reflexivity|right; discriminate].
Qed.

(** X5.  The handler never fails, whatever the endpoint and the clock do: it
    returns normally, keeps what was on the page and in the log of requests,
    and sends no request or exactly two. *)
Theorem run_prompt_never_raises W c st :
  exists st' page sent,
    run_prompt W c st = (Ok tt, st')
    /\ screen st' = screen st ++ page
    /\ posted st' = posted st ++ sent
    /\ (length sent = 0 \/ length sent = 2).
Proof.
  destruct (run_prompt_pressed c) eqn:Hp.
  - destruct (blank_dec (user_prompt c)) as [Hb|Hb].
    + eexists. exists [(Page, Warning (lit "Please enter a prompt first."))], [].
      split; [apply (run_prompt_blank W c st Hp Hb)|]. cbn [screen posted].
      split; [reflexivity|]. split; [rewrite app_nil_r; reflexivity|]. left. reflexivity.
    + destruct (run_prompt_calls W c st Hp Hb) as (o1 & t1 & o2 & t2 & _ & _ & E).
      eexists. eexists. eexists. split; [exact E|]. cbn [screen posted].
      split; [reflexivity|]. split; [reflexivity|]. right. reflexivity.
  - exists st, [], []. split; [apply (run_prompt_idle W c st Hp)|].
    rewrite !app_nil_r. split; [reflexivity|]. split; [reflexivity|]. left. reflexivity.
Qed.



(** X7.  The token budget sent and shown is always the value of the override
    field of the advanced options; the length choice only matters through it. *)
Theorem max_tokens_is_override c : max_tokens c = custom_max_tokens c.
Proof.
  unfold max_tokens.
  destruct (custom_max_tokens c =? length_map (length_option c))%Z eqn:E; simpl.
  - apply Z.eqb_eq in E. symmetry. exact E.
  - reflexivity.
Qed.

(** X8.  A call that fails does not stop the other one and is shown in its
    own column only: when the first call fails, its column holds the header,
    the parameters and the error text, the second request is still sent, the
    second column is rendered from what the second call returned (the
    cleaned content of the second answer with the time measured around the
    second POST, or the error text of the second answer with time zero),
    and no comparison summary is shown. *)
Theorem failed_first_call_is_scoped W c st txt :
  run_prompt_pressed c = true ->
  ~ blank (user_prompt c) ->
  failure W (endpoint W (length (posted st))
               (request_of W (user_prompt c) (model_1 c) (temperature c) (max_tokens c)))
          txt ->
  let st0 := {| clock_reads := clock_reads st; posted := posted st;
                screen := screen st ++ [(Page, Spinner (spinner_text c))] |} in
  let rq1 := request_of W (user_prompt c) (model_1 c) (temperature c) (max_tokens c) in
  let rq2 := request_of W (user_prompt c) (model_2 c) (temperature c) (max_tokens c) in
  let reply_2 := endpoint W (S (length (posted st))) rq2 in
  let n := clock_reads (after_call W rq1 st0) in
  exists output_2 time_2 st',
    call_groq W (user_prompt c) (model_2 c) (temperature c) (max_tokens c)
      (after_call W rq1 st0)
    = (Ok (output_2, time_2), after_call W rq2 (after_call W rq1 st0))
    /\ ((exists content,
           succeeded reply_2 content /\ output_2 = clean_response content
           /\ time_2 = (clock W (S n) - clock W n)%Q)
        \/ (failure W reply_2 output_2 /\ time_2 = 0%Q))
    /\ run_prompt W c st = (Ok tt, st')
    /\ screen st'
       = screen st ++ [(Page, Spinner (spinner_text c)); (Page, Columns 2)]
         ++ map (pair Col1)
              (column_head W (model_1 c) (temperature c) (max_tokens c) txt)
         ++ map (pair Col2)
              (render_column W (model_2 c) (temperature c) (max_tokens c) output_2 time_2)
    /\ posted st' = posted st ++ [rq1; rq2].
Proof.
  intros Hp Hb Hf st0 rq1 rq2 reply_2 n.
  destruct (run_prompt_calls W c st Hp Hb) as (o1 & t1 & o2 & t2 & E1 & E2 & E).
  fold st0 rq1 rq2 in E1, E2.
  destruct (call_groq_cases _ _ _ _ _ _ _ _ _ E1) as [(content & S & _)|[F T]].
  - exfalso. revert S. cbn [posted]. apply (failure_not_succeeded _ _ _ _ Hf).
  - cbn [posted] in F. pose proof (failure_text_functional _ _ _ _ F Hf) as ->. subst t1.
    exists o2, t2. eexists. split; [exact E2|]. split.
    { pose proof (call_groq_cases _ _ _ _ _ _ _ _ _ E2) as C. cbv zeta in C.
      rewrite after_call_posted, length_app in C. change (posted st0) with (posted st) in C.
      cbn [length] in C.
      replace (length (posted st) + 1) with (S (length (posted st))) in C by lia.
      exact C. }
    split; [exact E|]. cbn [screen posted]. split; [|reflexivity].
    rewrite (render_column_head W _ _ _ txt 0%Q)
      by (right; apply (failure_starts_with_Error _ _ _ Hf)).
    unfold comparison_summary. cbn [map]. rewrite !app_nil_r. reflexivity.
Qed.

Lemma failed_first_call_is_scoped_witness :
  let W := env_first_fails in
  let c := say_hi (lit "Say hi") in
  let st := initial in
  let txt := lit "Error: connection refused" in
  let st0 := {| clock_reads := clock_reads st; posted := posted st;
                screen := screen st ++ [(Page, Spinner (spinner_text c))] |} in
  let rq1 := request_of W (user_prompt c) (model_1 c) (temperature c) (max_tokens c) in
  let rq2 := request_of W (user_prompt c) (model_2 c) (temperature c) (max_tokens c) in
  let reply_2 := endpoint W (S (length (posted st))) rq2 in
  let n := clock_reads (after_call W rq1 st0) in
  exists output_2 time_2 st',
    call_groq W (user_prompt c) (model_2 c) (temperature c) (max_tokens c)
      (after_call W rq1 st0)
    = (Ok (output_2, time_2), after_call W rq2 (after_call W rq1 st0))
    /\ ((exists content,
           succeeded reply_2 content /\ output_2 = clean_response content
           /\ time_2 = (clock W (S n) - clock W n)%Q)
        \/ (failure W reply_2 output_2 /\ time_2 = 0%Q))
    /\ run_prompt W c st = (Ok tt, st')
    /\ screen st'
       = screen st ++ [(Page, Spinner (spinner_text c)); (Page, Columns 2)]
         ++ map (pair Col1)
              (column_head W (model_1 c) (temperature c) (max_tokens c) txt)
         ++ map (pair Col2)
              (render_column W (model_2 c) (temperature c) (max_tokens c) output_2 time_2)
    /\ posted st' = posted st ++ [rq1; rq2].
Proof.
  apply (failed_first_call_is_scoped env_first_fails (say_hi (lit "Say hi")) initial
           (lit "Error: connection refused")).
  - reflexivity.
  - unfold blank. vm_compute. discriminate.
  - apply (transport_failure env_first_fails
             (OtherError (lit "ConnectionError") (lit "connection refused"))).
Defined.

(** X9.  The same holds for the second call: when it fails, the second
    column holds the header, the parameters and the error text, the first
    column is rendered from what the first call returned (the cleaned
    content of the first answer with the time measured around the first
    POST, or the error text of the first answer with time zero), and no
    comparison summary is shown. *)
Theorem failed_second_call_is_scoped W c st txt :
  run_prompt_pressed c = true ->
  ~ blank (user_prompt c) ->
  failure W (endpoint W (S (length (posted st)))
               (request_of W (user_prompt c) (model_2 c) (temperature c) (max_tokens c)))
          txt ->
  let st0 := {| clock_reads := clock_reads st; posted := posted st;
                screen := screen st ++ [(Page, Spinner (spinner_text c))] |} in
  let rq1 := request_of W (user_prompt c) (model_1 c) (temperature c) (max_tokens c) in
  let rq2 := request_of W (user_prompt c) (model_2 c) (temperature c) (max_tokens c) in
  let reply_1 := endpoint W (length (posted st)) rq1 in
  exists output_1 time_1 st',
    call_groq W (user_prompt c) (model_1 c) (temperature c) (max_tokens c) st0
    = (Ok (output_1, time_1), after_call W rq1 st0)
    /\ ((exists content,
           succeeded reply_1 content /\ output_1 = clean_response content
           /\ time_1 = (clock W (S (clock_reads st)) - clock W (clock_reads st))%Q)
        \/ (failure W reply_1 output_1 /\ time_1 = 0%Q))
    /\ run_prompt W c st = (Ok tt, st')
    /\ screen st'
       = screen st ++ [(Page, Spinner (spinner_text c)); (Page, Columns 2)]
         ++ map (pair Col1)
              (render_column W (model_1 c) (temperature c) (max_tokens c) output_1 time_1)
         ++ map (pair Col2)
              (column_head W (model_2 c) (temperature c) (max_tokens c) txt)
    /\ posted st' = posted st ++ [rq1; rq2].
Proof.
  intros Hp Hb Hf st0 rq1 rq2 reply_1.
  destruct (run_prompt_calls W c st Hp Hb) as (o1 & t1 & o2 & t2 & E1 & E2 & E).
  fold st0 rq1 rq2 in E1, E2.
  destruct (call_groq_cases _ _ _ _ _ _ _ _ _ E2) as [(content & S & _)|[F T]].
  - exfalso. revert S. rewrite after_call_posted, length_app.
    change (posted st0) with (posted st). cbn [length].
    replace (length (posted st) + 1) with (S (length (posted st))) by lia.
    apply (failure_not_succeeded _ _ _ _ Hf).
  - rewrite after_call_posted, length_app in F. change (posted st0) with (posted st) in F.
    cbn [length] in F.
    replace (length (posted st) + 1) with (S (length (posted st))) in F by lia.
    pose proof (failure_text_functional _ _ _ _ F Hf) as ->. subst t2.
    exists o1, t1. eexists. split; [exact E1|]. split.
    { exact (call_groq_cases _ _ _ _ _ _ _ _ _ E1). }
    split; [exact E|]. cbn [screen posted]. split; [|reflexivity].
    rewrite (render_column_head W _ _ _ txt 0%Q)
      by (right; apply (failure_starts_with_Error _ _ _ Hf)).
    unfold comparison_summary. change (ltb 0 0) with false. rewrite andb_false_r.
    cbn [map]. rewrite !app_nil_r. reflexivity.
Qed.

Lemma failed_second_call_is_scoped_witness :
  let W := env_second_fails in
  let c := say_hi (lit "Say hi") in
  let st := initial in
  let txt := lit "Error: 500 - boom" in
  let st0 := {| clock_reads := clock_reads st; posted := posted st;
                screen := screen st ++ [(Page, Spinner (spinner_text c))] |} in
  let rq1 := request_of W (user_prompt c) (model_1 c) (temperature c) (max_tokens c) in
  let rq2 := request_of W (user_prompt c) (model_2 c) (temperature c) (max_tokens c) in
  let reply_1 := endpoint W (length (posted st)) rq1 in
  exists output_1 time_1 st',
    call_groq W (user_prompt c) (model_1 c) (temperature c) (max_tokens c) st0
    = (Ok (output_1, time_1), after_call W rq1 st0)
    /\ ((exists content,
           succeeded reply_1 content /\ output_1 = clean_response content
           /\ time_1 = (clock W (S (clock_reads st)) - clock W (clock_reads st))%Q)
        \/ (failure W reply_1 output_1 /\ time_1 = 0%Q))
    /\ run_prompt W c st = (Ok tt, st')
    /\ screen st'
       = screen st ++ [(Page, Spinner (spinner_text c)); (Page, Columns 2)]
         ++ map (pair Col1)
              (render_column W (model_1 c) (temperature c) (max_tokens c) output_1 time_1)
         ++ map (pair Col2)
              (column_head W (model_2 c) (temperature c) (max_tokens c) txt)
    /\ posted st' = posted st ++ [rq1; rq2].
Proof.
  apply (failed_second_call_is_scoped env_second_fails (say_hi (lit "Say hi")) initial
           (lit "Error: 500 - boom")).
  - reflexivity.
  - unfold blank. vm_compute. discriminate.
  - apply (status_failure env_second_fails error_response). vm_compute. discriminate.
Defined.

(** X10.  The result of one model does not depend on how the other call ended:
    when the second call succeeds, the second column is rendered from its
    cleaned content and from the two clock readings around the second POST,
    whatever the first call returned. *)
Theorem second_column_unaffected W c st content :
  run_prompt_pressed c = true ->
  ~ blank (user_prompt c) ->
  succeeded (endpoint W (S (length (posted st)))
               (request_of W (user_prompt c) (model_2 c) (temperature c) (max_tokens c)))
            content ->
  exists n,
    (n = S (clock_reads st) \/ n = S (S (clock_reads st)))
    /\ forall e,
         In e (render_column W (model_2 c) (temperature c) (max_tokens c)
                 (clean_response content) (clock W (S n) - clock W n)%Q) ->
         In (Col2, e) (screen (snd (run_prompt W c st))).
Proof.
  intros Hp Hb (resp & He & Hs & Hm).
  destruct (run_prompt_calls W c st Hp Hb) as (o1 & t1 & o2 & t2 & _ & E2 & E).
  set (rq1 := request_of W (user_prompt c) (model_1 c) (temperature c) (max_tokens c)) in *.
  set (st0 := {| clock_reads := clock_reads st; posted := posted st;
                 screen := screen st ++ [(Page, Spinner (spinner_text c))] |}) in *.
  exists (clock_reads (after_call W rq1 st0)). split.
  { exact (after_call_reads W rq1 st0). }
  pose proof (call_groq_run W (user_prompt c) (model_2 c) (temperature c) (max_tokens c)
                (after_call W rq1 st0)) as R.
  cbv zeta in R. rewrite E2 in R. injection R as R.
  replace (length (posted st ++ [rq1])) with (S (length (posted st))) in R
    by (rewrite length_app; cbn; lia).
  rewrite He, Hm in R. apply Z.eqb_eq in Hs. rewrite Hs in R. injection R as -> ->.
  intros e Hin. rewrite E. cbn [snd screen].
  apply in_or_app. right. apply in_or_app. right. apply in_or_app. right.
  apply in_or_app. left. apply in_map. exact Hin.
Qed.

Lemma second_column_unaffected_witness :
  exists n,
    (n = S (clock_reads initial) \/ n = S (S (clock_reads initial)))
    /\ forall e,
         In e (render_column env_first_fails (lit "gemma2-9b-it") (7 # 10) 400
                 (clean_response (lit "Hello there"))
                 (clock env_first_fails (S n) - clock env_first_fails n)%Q) ->
         In (Col2, e)
            (screen (snd (run_prompt env_first_fails (say_hi (lit "Say hi")) initial))).
Proof.
  apply (second_column_unaffected env_first_fails (say_hi (lit "Say hi")) initial
           (lit "Hello there")).
  - reflexivity.
  - unfold blank. vm_compute. discriminate.
  - exists (ok_response (lit "Hello there")). repeat split; reflexivity.
Defined.

(** X11.  The comparison summary is shown only when both calls succeeded:
    if the handler adds a summary line to the page, both answers had status
    200 and a well-formed body. *)
Theorem summary_only_after_two_successes W c st :
  run_prompt_pressed c = true ->
  ~ blank (user_prompt c) ->
  exists page,
    screen (snd (run_prompt W c st)) = screen st ++ page
    /\ forall s,
         In (Page, Success s) page ->
         exists content_1 content_2,
           succeeded (endpoint W (length (posted st))
                        (request_of W (user_prompt c) (model_1 c) (temperature c)
                           (max_tokens c))) content_1
           /\ succeeded (endpoint W (S (length (posted st)))
                           (request_of W (user_prompt c) (model_2 c) (temperature c)
                              (max_tokens c))) content_2.
Proof.
  intros Hp Hb.
  destruct (run_prompt_calls W c st Hp Hb) as (o1 & t1 & o2 & t2 & E1 & E2 & E).
  eexists. rewrite E. cbn [snd screen]. split; [reflexivity|].
  intros s Hin.
  assert (Hs : comparison_summary (model_1 c) (model_2 c) t1 t2 <> []).
  { cbn [app] in Hin. destruct Hin as [H|[H|Hin]]; try discriminate.
    apply in_app_or in Hin. destruct Hin as [Hin|Hin].
    { apply in_map_iff in Hin. destruct Hin as (x & H & _). discriminate. }
    apply in_app_or in Hin. destruct Hin as [Hin|Hin].
    { apply in_map_iff in Hin. destruct Hin as (x & H & _). discriminate. }
    intros Hnil. rewrite Hnil in Hin. contradiction. }
  assert (Hpos : (0 < t1)%Q /\ (0 < t2)%Q).
  { unfold comparison_summary in Hs.
    destruct (ltb 0 t1) eqn:L1; destruct (ltb 0 t2) eqn:L2; simpl in Hs;
      try (exfalso; apply Hs; reflexivity).
    split; apply ltb_lt; assumption. }
  destruct Hpos as [P1 P2].
  destruct (call_groq_cases _ _ _ _ _ _ _ _ _ E1) as [(c1 & S1 & _)|[_ T]];
    [|exfalso; rewrite T in P1; revert P1; vm_compute; discriminate].
  destruct (call_groq_cases _ _ _ _ _ _ _ _ _ E2) as [(c2 & S2 & _)|[_ T]];
    [|exfalso; rewrite T in P2; revert P2; vm_compute; discriminate].
  exists c1, c2. split; [exact S1|].
  rewrite after_call_posted, length_app in S2. cbn [posted length] in S2.
  replace (length (posted st) + 1) with (S (length (posted st))) in S2 by lia.
  exact S2.
Qed.

Lemma summary_only_after_two_successes_witness :
  exists page,
    screen (snd (run_prompt env_scenario (say_hi (lit "Say hi")) initial))
    = screen initial ++ page
    /\ forall s,
         In (Page, Success s) page ->
         exists content_1 content_2,
           succeeded (endpoint env_scenario (length (posted initial))
                        (request_of env_scenario (lit "Say hi")
                           (lit "llama-3.1-8b-instant") (7 # 10) 400)) content_1
           /\ succeeded (endpoint env_scenario (S (length (posted initial)))
                           (request_of env_scenario (lit "Say hi")
                              (lit "gemma2-9b-it") (7 # 10) 400)) content_2.
Proof.
  apply (summary_only_after_two_successes env_scenario (say_hi (lit "Say hi")) initial).
  - reflexivity.
  - unfold blank. vm_compute. discriminate.
Defined.

(** ** The comparison line *)

(** A whole number that is not negative is written with zeros after the point. *)
Lemma format_f_integer n x k :
  (x == inject_Z k)%Q -> (0 <= k)%Z ->
  format_f n x
  = str_int k ++ match n with O => [] | _ => lit "." ++ frac_digits n 0 end.
Proof.
  intros Hx Hk. unfold format_f.
  assert (Hx0 : (0 <= x)%Q).
  { rewrite Hx. unfold Qle. cbn. lia. }
  assert (E : ltb x 0 = false) by (apply ltb_ge; exact Hx0). rewrite E.
  set (scale := (10 ^ Z.of_nat n)%Z).
  assert (Hs : (0 < scale)%Z) by (apply Z.pow_pos_nonneg; lia).
  assert (Hm : round_half_even (Qabs x * inject_Z scale) = (k * scale)%Z).
  { apply round_half_even_integer. rewrite Qabs_pos by exact Hx0.
    rewrite Hx. unfold Qeq. cbn. lia. }
  rewrite Hm, Z.div_mul, Z.mod_mul by lia. reflexivity.
Qed.

(** X12.  On a tie of two positive durations the summary names the second
    model and reads "1.0x faster (0.00s difference)". *)
Theorem summary_line_on_tie model_1 model_2 time_1 time_2 :
  (0 < time_1)%Q -> (time_1 == time_2)%Q ->
  comparison_summary model_1 model_2 time_1 time_2
  = [ Markdown (lit "---");
      Success (model_2 ++ lit " was 1.0x faster (0.00s difference)") ].
Proof.
  intros Hp He.
  assert (L12 : ltb time_1 time_2 = false) by (apply ltb_ge; lra).
  assert (L21 : ltb time_2 time_1 = false) by (apply ltb_ge; lra).
  assert (P1 : ltb 0 time_1 = true) by (apply ltb_lt; exact Hp).
  assert (P2 : ltb 0 time_2 = true) by (apply ltb_lt; lra).
  unfold comparison_summary, summary_line, faster_model, speed_ratio, speed_diff,
    Py.max, Py.min.
  rewrite P1, P2, L12, L21. cbn [andb].
  rewrite (format_f_integer 1 (truediv time_1 time_1) 1).
  - rewrite (format_f_integer 2 (Qabs (time_1 - time_2)) 0).
    + reflexivity.
    + rewrite He. setoid_replace (time_2 - time_2)%Q with 0%Q by ring. reflexivity.
    + lia.
  - apply truediv_self. exact Hp.
  - lia.
Qed.

Lemma summary_line_on_tie_witness :
  comparison_summary (lit "llama-3.1-8b-instant") (lit "gemma2-9b-it") (1 # 2) (2 # 4)
  = [ Markdown (lit "---");
      Success (lit "gemma2-9b-it" ++ lit " was 1.0x faster (0.00s difference)") ].
Proof.
  apply (summary_line_on_tie (lit "llama-3.1-8b-instant") (lit "gemma2-9b-it")
           (1 # 2) (2 # 4)); reflexivity.
Defined.

Lemma Qabs_minus_swap a b : Qabs (a - b) = Qabs (b - a).
Proof.
  destruct a as [na da], b as [nb db]. unfold Qminus, Qplus, Qopp, Qabs. cbn [Qnum Qden].
  f_equal; [lia|apply Pos.mul_comm].
Qed.

(** X13.  When the two durations differ, the summary does not depend on the
    slot a model was selected in: exchanging the two models together with
    their durations gives the same line. *)
Theorem summary_line_slots_exchange model_1 model_2 time_1 time_2 :
  ~ (time_1 == time_2)%Q ->
  summary_line model_1 model_2 time_1 time_2 = summary_line model_2 model_1 time_2 time_1.
Proof.
  intros Hne. unfold summary_line, faster_model, speed_ratio, speed_diff, Py.max, Py.min.
  rewrite (Qabs_minus_swap time_1 time_2).
  destruct (ltb time_1 time_2) eqn:L12; destruct (ltb time_2 time_1) eqn:L21;
    try reflexivity.
  - apply ltb_lt in L12, L21. lra.
  - exfalso. apply Hne. apply ltb_ge in L12, L21. lra.
Qed.

Lemma summary_line_slots_exchange_witness :
  summary_line (lit "llama-3.1-8b-instant") (lit "gemma2-9b-it") (1 # 2) 1
  = summary_line (lit "gemma2-9b-it") (lit "llama-3.1-8b-instant") 1 (1 # 2).
Proof.
  apply (summary_line_slots_exchange (lit "llama-3.1-8b-instant") (lit "gemma2-9b-it")
           (1 # 2) 1).
  vm_compute. discriminate.
Defined.

(** ** The columns *)

Lemma render_column_unfold W model temperature max_tokens output time :
  render_column W model temperature max_tokens output time
  = column_head W model temperature max_tokens output
    ++ (if truthy output && negb (startswith output (lit "Error"))
        then
          [ Caption (lit "Response time: " ++ format_f 2 time ++ lit " seconds");
            Caption (lit "Word count: " ++ str_int (Z.of_nat (length (split output)))
                     ++ lit " words") ]
          ++ (if ltb 0 time
              then [ Caption (lit "Speed: "
                              ++ format_f 1
                                   (truediv
                                      (float_of_int (Z.of_nat (length (split output))))
                                      time)
                              ++ lit " words/second") ]
              else [])
        else []).
Proof. reflexivity. Qed.

Lemma truthy_iff s : truthy s = true <-> s <> [].
Proof. destruct s; simpl; split; congruence. Qed.

Lemma caption_heads_differ a x b y :
  hd 0%N a <> hd 0%N b -> a <> [] -> b <> [] -> Caption (a ++ x) <> Caption (b ++ y).
Proof.
  intros H Ha Hb E. injection E as E. apply H.
  destruct a as [|c a]; [contradiction|]. destruct b as [|d b]; [contradiction|].
  simpl in E. injection E as E _. exact E.
Qed.

(** X14.  A column shows derived metrics exactly when its text is not empty
    and does not begin with "Error"; among them the speed line is shown
    exactly when, in addition, the duration is strictly positive, so the
    speed is never computed with a zero or negative duration. *)
Theorem metrics_shown_iff W model temperature max_tokens output time :
  (existsb is_caption (render_column W model temperature max_tokens output time) = true
   <-> output <> [] /\ startswith output (lit "Error") = false)
  /\ (In (Caption (lit "Speed: "
                   ++ format_f 1 (truediv (float_of_int (Z.of_nat (length (split output))))
                                          time)
                   ++ lit " words/second"))
         (render_column W model temperature max_tokens output time)
      <-> output <> [] /\ startswith output (lit "Error") = false /\ (0 < time)%Q).
Proof.
  rewrite render_column_unfold.
  set (speed := Caption (lit "Speed: " ++ _)).
  assert (Hh : ~ In speed (column_head W model temperature max_tokens output)).
  { unfold column_head. intros [H|[H|[H|[]]]]; discriminate. }
  rewrite existsb_app, in_app_iff.
  change (existsb is_caption (column_head W model temperature max_tokens output))
    with false.
  cbn [orb].
  destruct (truthy output) eqn:T.
  - apply truthy_iff in T.
    destruct (startswith output (lit "Error")) eqn:E; cbn [andb negb].
    + split; split.
      * discriminate.
      * intros [_ H]. discriminate.
      * intros [H|[]]. contradiction.
      * intros (_ & H & _). discriminate.
    + split; split.
      * intros _. split; [exact T|reflexivity].
      * intros _. reflexivity.
      * intros [H|H]; [contradiction|]. split; [exact T|]. split; [reflexivity|].
        destruct (ltb 0 time) eqn:L; [apply ltb_lt; exact L|]. exfalso.
        cbn [app] in H. destruct H as [H|[H|[]]]; revert H; unfold speed;
          apply caption_heads_differ; discriminate.
      * intros (_ & _ & H). apply ltb_lt in H. rewrite H. right.
        cbn [app]. right. right. left. reflexivity.
  - assert (T' : output = []) by (destruct output; [reflexivity|discriminate]).
    cbn [andb]. split; split.
    + discriminate.
    + intros [H _]. contradiction.
    + intros [H|[]]. contradiction.
    + intros (H & _). contradiction.
Qed.

Lemma metrics_shown_iff_witness :
  In (Caption (lit "Speed: "
               ++ format_f 1 (truediv
                                (float_of_int (Z.of_nat (length (split (lit "Hello there")))))
                                (1 # 2))
               ++ lit " words/second"))
     (render_column env_hello (lit "gemma2-9b-it") (7 # 10) 400 (lit "Hello there") (1 # 2)).
Proof.
  apply (proj2 (proj2 (metrics_shown_iff env_hello (lit "gemma2-9b-it") (7 # 10) 400
                         (lit "Hello there") (1 # 2)))).
  split; [discriminate|]. split; reflexivity.
Defined.

Lemma lstrip_splits s : exists w, s = w ++ lstrip s /\ blank w.
Proof.
  induction s as [|c s (w & E & Hw)]; [exists []; split; reflexivity|].
  simpl. destruct (isspace c) eqn:Hc.
  - exists (c :: w). split; [simpl; f_equal; exact E|]. unfold blank in *. simpl.
    rewrite Hc, Hw. reflexivity.
  - exists []. split; reflexivity.
Qed.

Lemma rstrip_splits s : exists w, s = rstrip s ++ w /\ blank w.
Proof.
  unfold rstrip. destruct (lstrip_splits (rev s)) as (w & E & Hw).
  exists (rev w). split.
  - rewrite <- rev_app_distr, <- E, rev_involutive. reflexivity.
  - apply blank_rev. rewrite rev_involutive. exact Hw.
Qed.

Lemma rstrip_last s front c : rstrip s = front ++ [c] -> isspace c = false.
Proof.
  unfold rstrip. intros H.
  assert (E : lstrip (rev s) = c :: rev front).
  { rewrite <- (rev_involutive (lstrip (rev s))), H, rev_app_distr. reflexivity. }
  apply lstrip_head in E. exact E.
Qed.

Lemma strip_head s c rest : strip s = c :: rest -> isspace c = false.
Proof.
  unfold strip. intros H. destruct (rstrip_splits (lstrip s)) as (w & E & _).
  rewrite H in E. simpl in E. apply lstrip_head in E. exact E.
Qed.

Lemma lstrip_fixed s c rest : s = c :: rest -> isspace c = false -> lstrip s = s.
Proof. intros -> H. simpl. rewrite H. reflexivity. Qed.

Lemma rstrip_fixed s front c : s = front ++ [c] -> isspace c = false -> rstrip s = s.
Proof.
  intros -> H. unfold rstrip. rewrite rev_app_distr. simpl. rewrite H. simpl.
  rewrite rev_involutive. reflexivity.
Qed.

Lemma strip_strip s : strip (strip s) = strip s.
Proof.
  destruct (strip s) as [|c rest] eqn:E; [reflexivity|].
  pose proof (strip_head s c rest E) as Hc.
  unfold strip at 1. rewrite (lstrip_fixed (c :: rest) c rest eq_refl Hc).
  destruct (exists_last (l := c :: rest) ltac:(discriminate)) as (front & d & Ed).
  rewrite Ed. apply rstrip_fixed with (front := front) (c := d); [reflexivity|].
  apply (rstrip_last (lstrip s) front d). unfold strip in E. rewrite E. exact Ed.
Qed.

(** X15.  The text [clean_response] returns never begins or ends with white
    space, and trimming it again changes nothing. *)
Theorem clean_response_is_trimmed text :
  strip (clean_response text) = clean_response text
  /\ (forall c rest, clean_response text = c :: rest -> isspace c = false)
  /\ (forall front c, clean_response text = front ++ [c] -> isspace c = false).
Proof.
  unfold clean_response. split; [apply strip_strip|]. split.
  - intros c rest. apply strip_head.
  - intros front c. unfold strip. apply rstrip_last.
Qed.

Lemma clean_response_is_trimmed_witness :
  clean_response (lit "  <think>plan</think> Hello there ") = 72%N :: lit "ello there"
  /\ isspace 72%N = false.
Proof.
  split; [reflexivity|].
  apply (proj1 (proj2 (clean_response_is_trimmed
                         (lit "  <think>plan</think> Hello there ")))
           72%N (lit "ello there")).
  reflexivity.
Defined.

Lemma split_from_pending cur s : cur <> [] -> split_from cur s <> [].
Proof.
  revert cur. induction s as [|c s IH]; intros cur Hc; simpl.
  - destruct cur; [contradiction|discriminate].
  - destruct (isspace c).
    + destruct cur; [contradiction|discriminate].
    + apply IH. discriminate.
Qed.

Lemma split_from_not_blank cur s : ~ blank s -> split_from cur s <> [].
Proof.
  unfold blank. revert cur. induction s as [|c s IH]; intros cur Hb; simpl.
  - exfalso. apply Hb. reflexivity.
  - destruct (isspace c) eqn:Hc.
    + simpl in Hb. rewrite Hc in Hb.
      destruct cur; [apply IH; exact Hb|discriminate].
    + apply split_from_pending. discriminate.
Qed.

(** X16.  A cleaned answer that is not empty counts at least one word: the
    word count shown for a successful call is never zero. *)
Theorem cleaned_answer_has_a_word content :
  clean_response content <> [] -> 1 <= length (split (clean_response content)).
Proof.
  intros H.
  assert (Hb : ~ blank (clean_response content)).
  { intros Hb. apply H. unfold clean_response in *.
    rewrite <- strip_strip. apply strip_blank. exact Hb. }
  pose proof (split_from_not_blank [] _ Hb) as N. unfold split.
  destruct (split_from [] (clean_response content)); [contradiction|simpl; lia].
Qed.

Lemma cleaned_answer_has_a_word_witness :
  1 <= length (split (clean_response (lit " <think>plan</think> Hello there "))).
Proof.
  apply (cleaned_answer_has_a_word (lit " <think>plan</think> Hello there ")).
  vm_compute. discriminate.
Defined.

Lemma subseq_refl s : subseq s s.
Proof. induction s; constructor; assumption. Qed.

Lemma subseq_trans s t u : subseq s t -> subseq t u -> subseq s u.
Proof.
  intros H1 H2. revert s H1. induction H2 as [|c t u H2 IH|c t u H2 IH]; intros s H1.
  - exact H1.
  - apply subseq_skip. apply IH. exact H1.
  - inversion H1; subst.
    + apply subseq_skip. apply IH. assumption.
    + apply subseq_keep. apply IH. assumption.
Qed.

Lemma subseq_drop_front w s : subseq s (w ++ s).
Proof. induction w; simpl; [apply subseq_refl|apply subseq_skip; assumption]. Qed.

Lemma subseq_app a s t : subseq s t -> subseq (a ++ s) (a ++ t).
Proof. intros H. induction a; simpl; [exact H|apply subseq_keep; assumption]. Qed.

Lemma subseq_drop_back s w : subseq s (s ++ w).
Proof.
  rewrite <- (app_nil_r s) at 1. apply subseq_app.
  induction w; constructor; assumption.
Qed.

Lemma subseq_length s t : subseq s t -> length s <= length t.
Proof. induction 1; simpl; lia. Qed.

Lemma without_segments_subseq l tail :
  subseq (without_segments l tail) (with_segments l tail).
Proof.
  induction l as [|[a b] l IH]; cbn [with_segments without_segments];
    [apply subseq_refl|].
  apply subseq_app.
  apply subseq_trans with (t := with_segments l tail); [exact IH|].
  rewrite !app_assoc. apply subseq_drop_front.
Qed.

Lemma sub_think_subseq s : subseq (Re.sub_think s) s.
Proof.
  destruct (decomposition s) as (l & tail & -> & Hl & Ht).
  rewrite (sub_think_with_segments l tail Hl Ht). apply without_segments_subseq.
Qed.

Lemma strip_subseq s : subseq (strip s) s.
Proof.
  unfold strip. destruct (lstrip_splits s) as (w & E & _).
  destruct (rstrip_splits (lstrip s)) as (w' & E' & _).
  apply subseq_trans with (t := lstrip s).
  - rewrite E' at 2. apply subseq_drop_back.
  - rewrite E at 2. apply subseq_drop_front.
Qed.

(** X17.  [clean_response] only deletes: its output is the input with some
    characters taken out, in the same order, and is never longer than the
    input. *)
Theorem clean_response_only_deletes text :
  subseq (clean_response text) text
  /\ length (clean_response text) <= length text.
Proof.
  assert (H : subseq (clean_response text) text).
  { unfold clean_response.
    apply subseq_trans with (t := Re.sub_think text);
      [apply strip_subseq|apply sub_think_subseq]. }
  split; [exact H|apply subseq_length; exact H].
Qed.

(** ** The start of the script *)

(** X18.  The script stops at the start-up, with the error message and before
    the handler can send anything, exactly when the environment gives no key
    (the variable is missing or empty) and nothing is typed in the sidebar. *)
Theorem script_stops_iff_no_key W getenv typed c st :
  script W getenv typed c st = Stopped (lit "Please provide a Groq API Key to continue.")
  <-> key_present getenv = false /\ typed = [].
Proof.
  unfold script, load_api_key. split.
  - destruct (key_present getenv) eqn:P; cbn [negb].
    + destruct getenv as [[|x g]|]; try discriminate. cbn [snd].
      destruct (run_prompt _ c st). discriminate.
    + destruct typed as [|x t]; [intros _; split; reflexivity|]. cbn [snd].
      destruct (run_prompt _ c st). discriminate.
  - intros [P ->]. rewrite P. reflexivity.
Qed.

Lemma script_stops_iff_no_key_witness :
  script env_hello (Some []) [] (say_hi (lit "Say hi")) initial
  = Stopped (lit "Please provide a Groq API Key to continue.").
Proof.
  apply (proj2 (script_stops_iff_no_key env_hello (Some []) [] (say_hi (lit "Say hi"))
                  initial)).
  split; reflexivity.
Defined.

Lemma load_api_key_started getenv typed asked k :
  load_api_key getenv typed = (asked, Started k) ->
  k <> []
  /\ (asked = false -> getenv = Some k)
  /\ (asked = true -> key_present getenv = false /\ typed = k).
Proof.
  unfold load_api_key. destruct (key_present getenv) eqn:P; cbn [negb].
  - destruct getenv as [[|x g]|]; try discriminate.
    intros [= <- <-]. split; [discriminate|]. split; [reflexivity|]. discriminate.
  - destruct typed as [|x t]; [discriminate|].
    intros [= <- <-]. split; [discriminate|]. split; [discriminate|].
    intros _. split; reflexivity.
Qed.

Lemma load_api_key_asked getenv typed :
  fst (load_api_key getenv typed) = negb (key_present getenv).
Proof.
  unfold load_api_key.
  destruct (if negb (key_present getenv) then Some typed else getenv) as [[|x k]|];
    reflexivity.
Qed.

(** X19.  When the script goes on, it does so with a key that is not empty:
    the key of the environment when there is one, and the sidebar is then not
    asked, otherwise the key typed in the sidebar.  The handler does not
    fail, and every request it sends carries that key as the bearer token. *)
Theorem requests_carry_the_key W getenv typed c st r st' :
  script W getenv typed c st = Completed r st' ->
  exists k sent,
    k <> []
    /\ (key_present getenv = true -> getenv = Some k /\ fst (load_api_key getenv typed) = false)
    /\ (key_present getenv = false -> typed = k /\ fst (load_api_key getenv typed) = true)
    /\ r = Ok tt
    /\ posted st' = posted st ++ sent
    /\ forall rq,
         In rq sent ->
         url rq = GROQ_API_URL
         /\ getitem (headers rq) (IStr (lit "Authorization")) = Ok (VStr (lit "Bearer " ++ k)).
Proof.
  unfold script. destruct (load_api_key getenv typed) as [asked [error|k]] eqn:L;
    cbn [snd]; [discriminate|].
  destruct (run_prompt (with_api_key W k) c st) as [r0 st0] eqn:R. intros [= <- <-].
  destruct (load_api_key_started _ _ _ _ L) as (Hk & Hf & Ht).
  assert (Hasked : asked = negb (key_present getenv)).
  { rewrite <- (load_api_key_asked getenv typed), L. reflexivity. }
  assert (Hsent : exists sent,
             r0 = Ok tt /\ posted st0 = posted st ++ sent
             /\ forall rq, In rq sent ->
                  exists model, rq = request_of (with_api_key W k) (user_prompt c) model
                                       (temperature c) (max_tokens c)).
  { destruct (run_prompt_pressed c) eqn:Hp.
    - destruct (blank_dec (user_prompt c)) as [Hb|Hb].
      + rewrite (run_prompt_blank _ c st Hp Hb) in R. injection R as <- <-.
        exists []. cbn [posted]. rewrite app_nil_r. repeat split. intros rq [].
      + destruct (run_prompt_calls (with_api_key W k) c st Hp Hb)
          as (o1 & t1 & o2 & t2 & _ & _ & E).
        rewrite E in R. injection R as <- <-. eexists. cbn [posted].
        split; [reflexivity|]. split; [reflexivity|].
        intros rq [<-|[<-|[]]]; eexists; reflexivity.
    - rewrite (run_prompt_idle _ c st Hp) in R. injection R as <- <-.
      exists []. rewrite app_nil_r. repeat split. intros rq []. }
  destruct Hsent as (sent & Hr & Hp & Hs).
  exists k, sent. split; [exact Hk|].
  split.
  { intros P. rewrite P in Hasked. cbn in Hasked. cbn [fst].
    split; [apply Hf|]; exact Hasked. }
  split.
  { intros P. rewrite P in Hasked. cbn in Hasked. cbn [fst].
    split; [apply (proj2 (Ht Hasked))|exact Hasked]. }
  split; [exact Hr|]. split; [exact Hp|].
  intros rq Hin. destruct (Hs rq Hin) as (model & ->). split; reflexivity.
Qed.

Lemma requests_carry_the_key_witness :
  exists k sent,
    k <> []
    /\ (key_present (Some (lit "gsk_env")) = true ->
        Some (lit "gsk_env") = Some k
        /\ fst (load_api_key (Some (lit "gsk_env")) (lit "gsk_typed")) = false)
    /\ (key_present (Some (lit "gsk_env")) = false ->
        lit "gsk_typed" = k
        /\ fst (load_api_key (Some (lit "gsk_env")) (lit "gsk_typed")) = true)
    /\ Ok tt = Ok tt
    /\ posted (snd (run_prompt (with_api_key env_hello (lit "gsk_env"))
                      (say_hi (lit "Say hi")) initial))
       = posted initial ++ sent
    /\ forall rq,
         In rq sent ->
         url rq = GROQ_API_URL
         /\ getitem (headers rq) (IStr (lit "Authorization")) = Ok (VStr (lit "Bearer " ++ k)).
Proof.
  apply (requests_carry_the_key env_hello (Some (lit "gsk_env")) (lit "gsk_typed")
           (say_hi (lit "Say hi")) initial (Ok tt)
           (snd (run_prompt (with_api_key env_hello (lit "gsk_env"))
                   (say_hi (lit "Say hi")) initial))).
  vm_compute. reflexivity.
Defined.
